(** * Web-app generator service: the [POST /generate-app] pipeline

    A shallow embedding of the Express handler of the backend, of
    [generateAppFiles] and of [createZipArchive], over an explicit model of
    the file system, of the HTTP response object and of the collaborators the
    handler drives (sanitize-filename, uuid, puppeteer, archiver). *)

From Stdlib Require Import String Ascii List ZArith NArith Bool Lia.
From stdpp Require Import gmap strings list fin_maps.

Local Open Scope N_scope.

(** ** Strings

    A JavaScript string is modelled as a [string] whose characters stand for
    the code units of the string (code units below 256). *)

Definition dq : string := String "034"%char EmptyString.
Definition nl : string := String "010"%char EmptyString.

(** [lines] joins the lines of a template literal with line feeds. *)
Definition lines (ls : list string) : string := String.concat nl ls.

(** [occurs_in t s]: [t] occurs in [s] as a contiguous substring. *)
Definition occurs_in (t s : string) : Prop := exists a b, s = a +:+ t +:+ b.

(** [strip_prefix p s] is [Some r] when [s = p +:+ r]. *)
Fixpoint strip_prefix (p s : string) : option string :=
  match p, s with
  | EmptyString, _ => Some s
  | String a p', String b s' =>
      if Ascii.eqb a b then strip_prefix p' s' else None
  | String _ _, EmptyString => None
  end.

(** ** JSON values of the request body

    A field of the parsed body is absent ([JUndefined]) or holds a JSON value.
    Numbers are kept as integers and objects and arrays without their
    contents: the handler only tests a field for truthiness and passes it on,
    and every number other than zero and every object is truthy. *)

Inductive js_value : Type :=
  | JUndefined
  | JNull
  | JBool (b : bool)
  | JNum (n : Z)
  | JStr (s : string)
  | JObj.

(** JavaScript truthiness, as used by [!appName || !websiteUrl]. *)
Definition truthy (v : js_value) : bool :=
  match v with
  | JUndefined | JNull => false
  | JBool b => b
  | JNum n => negb (n =? 0)%Z
  | JStr s => negb (s =? EmptyString)%string
  | JObj => true
  end.

(** [req.body], after the JSON body parser: an object whose two fields the
    handler destructures. *)
Record request : Type := {
  appName : js_value;
  websiteUrl : js_value
}.

(** ** The sanitize-filename package

    The handler is parametric in the sanitizer; [sanitize_filename] is the
    package's pipeline of five replacements followed by a truncation to 255
    bytes of UTF-8, with the empty replacement the handler uses. *)

Definition code (c : ascii) : N := N_of_ascii c.

(** [illegalRe]: slash, question mark, angle brackets, backslash, colon,
    star, bar and double quote. *)
Definition is_illegal (c : ascii) : bool :=
  existsb (N.eqb (code c)) [47; 63; 60; 62; 92; 58; 42; 124; 34].

(** [controlRe]: code units 0x00-0x1f and 0x80-0x9f. *)
Definition is_control (c : ascii) : bool :=
  (code c <=? 31) || ((128 <=? code c) && (code c <=? 159)).

Fixpoint remove_chars (p : ascii -> bool) (s : string) : string :=
  match s with
  | EmptyString => EmptyString
  | String c s' => if p c then remove_chars p s' else String c (remove_chars p s')
  end.

Fixpoint all_chars (p : ascii -> bool) (s : string) : bool :=
  match s with
  | EmptyString => true
  | String c s' => p c && all_chars p s'
  end.

Definition is_dot (c : ascii) : bool := code c =? 46.
Definition is_dot_or_space (c : ascii) : bool := (code c =? 46) || (code c =? 32).
Definition is_digit (c : ascii) : bool := (48 <=? code c) && (code c <=? 57).

(** [reservedRe]: a name made of dots only is replaced as a whole. *)
Definition drop_reserved (s : string) : string :=
  match s with
  | EmptyString => s
  | _ => if all_chars is_dot s then EmptyString else s
  end.

Definition lower (c : ascii) : ascii :=
  if (65 <=? code c) && (code c <=? 90) then ascii_of_N (code c + 32) else c.

Fixpoint lower_string (s : string) : string :=
  match s with
  | EmptyString => EmptyString
  | String c s' => String (lower c) (lower_string s')
  end.

(** The optional extension of [windowsReservedRe]: nothing, or a dot followed
    by anything. *)
Definition ext_or_end (s : string) : bool :=
  match s with
  | EmptyString => true
  | String c _ => is_dot c
  end.

(** [windowsReservedRe], case-insensitive: con, prn, aux, nul, com0-9 and
    lpt0-9, alone or followed by an extension. *)
Definition is_windows_reserved (s : string) : bool :=
  match lower_string s with
  | String a (String b (String c r)) =>
      let w := String a (String b (String c EmptyString)) in
      if existsb (String.eqb w) ["con"; "prn"; "aux"; "nul"]%string then ext_or_end r
      else if existsb (String.eqb w) ["com"; "lpt"]%string then
        match r with
        | String d r' => is_digit d && ext_or_end r'
        | EmptyString => false
        end
      else false
  | _ => false
  end.

Definition drop_windows_reserved (s : string) : string :=
  if is_windows_reserved s then EmptyString else s.

(** [windowsTrailingRe]: trailing dots and spaces are removed. *)
Fixpoint drop_trailing (s : string) : string :=
  match s with
  | EmptyString => EmptyString
  | String c s' =>
      match drop_trailing s' with
      | EmptyString => if is_dot_or_space c then EmptyString else String c EmptyString
      | r => String c r
      end
  end.

(** truncate-utf8-bytes: a code unit below 0x80 is one byte of UTF-8, the
    others (below 0x100) two; the string is cut before the first character
    that would exceed the budget. *)
Fixpoint truncate_utf8 (budget : N) (s : string) : string :=
  match s with
  | EmptyString => EmptyString
  | String c s' =>
      let w := if code c <? 128 then 1 else 2 in
      if w <=? budget then String c (truncate_utf8 (budget - w) s') else EmptyString
  end.

Definition sanitize_filename (input : string) : string :=
  truncate_utf8 255
    (drop_trailing
       (drop_windows_reserved
          (drop_reserved
             (remove_chars is_control
                (remove_chars is_illegal input))))).

(** ** The file system

    Nodes are keyed by their full path. A zip archive is kept as the list of
    its entries (name relative to the archived directory, contents); any
    other file is its bytes. *)

#[warnings="-register-all"]
Inductive blob : Type :=
  | Bytes (s : string)
  | ZipData (entries : list (string * blob)).

Inductive node : Type :=
  | Dir
  | File (b : blob).

(** [inside d p]: the node at [p] lies below directory [d]. *)
Definition inside (d p : string) : Prop := strip_prefix (d +:+ "/") p <> None.

Definition entry_of (d : string) (kv : string * node) : option (string * blob) :=
  match kv.2 with
  | File b => (fun r => (r, b)) <$> strip_prefix (d +:+ "/") kv.1
  | Dir => None
  end.

Definition is_dir (fs : gmap string node) (p : string) : bool :=
  match fs !! p with Some Dir => true | _ => false end.

Definition is_file (fs : gmap string node) (p : string) : bool :=
  match fs !! p with Some (File _) => true | _ => false end.

(** The files below [d], named relative to [d]: what
    [archive.directory(d, false)] puts into the archive. *)
Definition dir_entries (d : string) (fs : gmap string node) : list (string * blob) :=
  omap (entry_of d) (map_to_list fs).

(** ** The HTTP response object *)

Inductive body : Type :=
  | NoBody
  | JsonError (msg : string)      (* the object with the one field [error] *)
  | FileStream (b : blob)         (* a file streamed to its end *)
  | PartialStream.                (* a file stream cut short *)

Record response : Type := {
  statusCode : N;
  headersSent : bool;
  contentDisposition : option string;   (* the attachment's file name *)
  resBody : body
}.

Definition fresh_response : response :=
  {| statusCode := 200; headersSent := false;
     contentDisposition := None; resBody := NoBody |}.

(** ** Exceptions, the console and the calls made to collaborators *)

Inductive exn : Type :=
  | InputMustBeString      (* sanitize-filename given a non-string *)
  | FsError                (* a rejected fs-extra call *)
  | BrowserError           (* launch, newPage, content or close failed *)
  | ProtocolError          (* goto given a non-string URL *)
  | NavigationError        (* unreachable or invalid URL *)
  | TimeoutError           (* navigation timeout exceeded *)
  | ArchiverError          (* the archive emitted 'error' *)
  | SendError              (* the transfer failed before the headers *)
  | RequestAborted         (* the transfer was cut after the headers *)
  | HeadersAlreadySent.    (* a header set after the headers were sent *)

Inductive wait_condition : Type :=
  | WaitLoad
  | WaitDomContentLoaded
  | NetworkIdle0
  | NetworkIdle2.

Record goto_options : Type := {
  waitUntil : wait_condition;
  timeout : N                  (* milliseconds; 0 disables the timeout *)
}.

Inductive event : Type :=
  | EnsureDir (p : string)
  | Launch (args : list string)
  | NewPage
  | Goto (url : js_value) (o : goto_options)
  | PageContent
  | CloseBrowser
  | WriteFile (p : string)
  | CopyFile (src dst : string)
  | CreateZip (src out : string)
  | SendFile (p name : string)
  | Remove (p : string).

Inductive log_entry : Type :=
  | ConsoleError (label : string) (e : exn).

(** ** The environment of one request *)

(** The places where a collaborator may fail for a reason of its own. *)
Inductive site : Type :=
  | AtEnsureDir
  | AtLaunch
  | AtNewPage
  | AtContent
  | AtClose
  | AtWriteFile (p : string)
  | AtCopyFile (dst : string)
  | AtArchive.

(** What a page does once navigation starts, for a given wait condition. *)
Inductive page_behaviour : Type :=
  | Settles (after : N) (html : string)   (* condition met after so many ms *)
  | Unreachable (after : N)               (* navigation fails after so many ms *)
  | NeverSettles.

Inductive transfer_outcome : Type :=
  | Delivered
  | FailsBeforeHeaders
  | AbortedMidStream.

Record world : Type := {
  uuid : string;                                    (* what [uuidv4()] returns *)
  fault : site -> bool;
  web : string -> wait_condition -> page_behaviour;
  transfer : transfer_outcome
}.

(** puppeteer's [page.goto] against a page behaviour: the time waited and the
    result. *)
Definition expired (o : goto_options) (t : N) : bool :=
  negb (timeout o =? 0) && (timeout o <? t).

Definition navigate (o : goto_options) (b : page_behaviour) : N * (exn + string) :=
  match b with
  | Settles t html =>
      if expired o t then (timeout o, inl TimeoutError) else (t, inr html)
  | Unreachable t =>
      if expired o t then (timeout o, inl TimeoutError) else (t, inl NavigationError)
  | NeverSettles =>
      if timeout o =? 0 then (0, inl TimeoutError) else (timeout o, inl TimeoutError)
  end.

(** ** State and the monad of handler code *)

Record state : Type := {
  fs : gmap string node;
  res : response;
  console : list log_entry;
  trace : list event
}.

Definition with_fs (f : gmap string node -> gmap string node) (s : state) : state :=
  {| fs := f (fs s); res := res s; console := console s; trace := trace s |}.

Definition with_res (f : response -> response) (s : state) : state :=
  {| fs := fs s; res := f (res s); console := console s; trace := trace s |}.

Definition with_console (f : list log_entry -> list log_entry) (s : state) : state :=
  {| fs := fs s; res := res s; console := f (console s); trace := trace s |}.

Definition with_trace (f : list event -> list event) (s : state) : state :=
  {| fs := fs s; res := res s; console := console s; trace := f (trace s) |}.

Inductive outcome (A : Type) : Type :=
  | Ok (a : A)
  | Throw (e : exn).

Arguments Ok {A} a.
Arguments Throw {A} e.

Definition M (A : Type) : Type := state -> outcome A * state.

Definition ret {A} (a : A) : M A := fun s => (Ok a, s).

Definition bind {A B} (m : M A) (k : A -> M B) : M B :=
  fun s => match m s with
           | (Ok a, s') => k a s'
           | (Throw e, s') => (Throw e, s')
           end.

Definition throw {A} (e : exn) : M A := fun s => (Throw e, s).

Definition try_catch {A} (m : M A) (h : exn -> M A) : M A :=
  fun s => match m s with
           | (Ok a, s') => (Ok a, s')
           | (Throw e, s') => h e s'
           end.

Definition get : M state := fun s => (Ok s, s).

Definition modify (f : state -> state) : M unit := fun s => (Ok tt, f s).

Declare Scope js_scope.
Delimit Scope js_scope with js.
Notation "x <- m ;; k" := (bind m (fun x => k))
  (at level 100, m at next level, right associativity) : js_scope.
Notation "m ;; k" := (bind m (fun _ => k))
  (at level 100, right associativity) : js_scope.
Local Open Scope js_scope.

Definition emit (e : event) : M unit := modify (with_trace (fun t => t ++ [e])).

Definition console_error (label : string) (e : exn) : M unit :=
  modify (with_console (fun l => l ++ [ConsoleError label e])).

(** What a handler leaves for the event loop: nothing, or a file to send with
    the callback to run when the transfer is over. *)
Inductive continuation : Type :=
  | Finished
  | Sending (p name : string) (done : option exn -> M unit).

(** [path.join] of segments holding no separator, none of them "." or "..":
    the normalisation [path.join] ends with leaves such a path as it is. *)
Definition path_join (segments : list string) : string :=
  String.concat "/" segments.

(** ** JSON.stringify on strings *)

Definition bs : string := String "092"%char EmptyString.

Definition hex_digit (n : N) : ascii :=
  if n <? 10 then ascii_of_N (48 + n) else ascii_of_N (87 + n).

Definition json_escape_char (c : ascii) : string :=
  let n := code c in
  if n =? 34 then bs +:+ dq
  else if n =? 92 then bs +:+ bs
  else if n =? 8 then bs +:+ "b"
  else if n =? 12 then bs +:+ "f"
  else if n =? 10 then bs +:+ "n"
  else if n =? 13 then bs +:+ "r"
  else if n =? 9 then bs +:+ "t"
  else if n <? 32 then
    bs +:+ "u00" +:+ String (hex_digit (n / 16)) (String (hex_digit (n mod 16)) EmptyString)
  else String c EmptyString.

Fixpoint json_escape (s : string) : string :=
  match s with
  | EmptyString => EmptyString
  | String c s' => json_escape_char c +:+ json_escape s'
  end.

Definition json_string (s : string) : string := dq +:+ json_escape s +:+ dq.

(** ** The templates of [generateAppFiles] *)

Definition indexHtml (appName content : string) : string :=
  lines
    [ EmptyString;
      "<!DOCTYPE html>";
      "<html lang=" +:+ dq +:+ "en" +:+ dq +:+ ">";
      "<head>";
      "    <meta charset=" +:+ dq +:+ "UTF-8" +:+ dq +:+ ">";
      "    <meta name=" +:+ dq +:+ "viewport" +:+ dq +:+ " content=" +:+ dq +:+ "width=device-width, initial-scale=1.0" +:+ dq +:+ ">";
      "    <title>" +:+ appName +:+ "</title>";
      "    <link rel=" +:+ dq +:+ "manifest" +:+ dq +:+ " href=" +:+ dq +:+ "manifest.json" +:+ dq +:+ ">";
      "    <meta name=" +:+ dq +:+ "theme-color" +:+ dq +:+ " content=" +:+ dq +:+ "#000000" +:+ dq +:+ ">";
      "    <link rel=" +:+ dq +:+ "stylesheet" +:+ dq +:+ " href=" +:+ dq +:+ "styles.css" +:+ dq +:+ ">";
      "</head>";
      "<body>";
      "    <div id=" +:+ dq +:+ "app-content" +:+ dq +:+ ">";
      "      " +:+ content;
      "    </div>";
      "    <script src=" +:+ dq +:+ "app.js" +:+ dq +:+ "></script>";
      "</body>";
      "</html>" ].

Definition serviceWorker (appName : string) : string :=
  lines
    [ EmptyString;
      "const CACHE_NAME = '" +:+ appName +:+ "-v1';";
      "const urlsToCache = [";
      "  '/',";
      "  '/index.html',";
      "  '/manifest.json',";
      "  '/styles.css',";
      "  '/app.js',";
      "  '/icon-192x192.png',";
      "  '/icon-512x512.png'";
      "];";
      EmptyString;
      "self.addEventListener('install', (event) => {";
      "  event.waitUntil(";
      "    caches.open(CACHE_NAME)";
      "      .then((cache) => cache.addAll(urlsToCache))";
      "  );";
      "});";
      EmptyString;
      "self.addEventListener('fetch', (event) => {";
      "  event.respondWith(";
      "    caches.match(event.request)";
      "      .then((response) => response || fetch(event.request))";
      "  );";
      "});" ].

Definition appJs : string :=
  lines
    [ EmptyString;
      "if ('serviceWorker' in navigator) {";
      "  window.addEventListener('load', () => {";
      "    navigator.serviceWorker.register('/sw.js')";
      "      .then((registration) => {";
      "        console.log('Service Worker registered:', registration);";
      "      })";
      "      .catch((error) => {";
      "        console.log('Service Worker registration failed:', error);";
      "      });";
      "  });";
      "}";
      EmptyString;
      "// Add any additional app-specific JavaScript here";
      EmptyString ].

Definition stylesCss : string :=
  lines
    [ EmptyString;
      "body {";
      "  font-family: Arial, sans-serif;";
      "  line-height: 1.6;";
      "  margin: 0;";
      "  padding: 0;";
      "}";
      EmptyString;
      "#app-content {";
      "  max-width: 1200px;";
      "  margin: 0 auto;";
      "  padding: 20px;";
      "}";
      EmptyString;
      "/* Add any additional styles here */";
      EmptyString ].

(** [JSON.stringify(manifest, null, 2)]. *)
Definition manifestJson (appName : string) : string :=
  lines
    [ "{";
      "  " +:+ dq +:+ "name" +:+ dq +:+ ": " +:+ json_string appName +:+ ",";
      "  " +:+ dq +:+ "short_name" +:+ dq +:+ ": " +:+ json_string appName +:+ ",";
      "  " +:+ dq +:+ "start_url" +:+ dq +:+ ": " +:+ json_string "/" +:+ ",";
      "  " +:+ dq +:+ "display" +:+ dq +:+ ": " +:+ json_string "standalone" +:+ ",";
      "  " +:+ dq +:+ "background_color" +:+ dq +:+ ": " +:+ json_string "#ffffff" +:+ ",";
      "  " +:+ dq +:+ "theme_color" +:+ dq +:+ ": " +:+ json_string "#000000" +:+ ",";
      "  " +:+ dq +:+ "icons" +:+ dq +:+ ": [";
      "    {";
      "      " +:+ dq +:+ "src" +:+ dq +:+ ": " +:+ json_string "icon-192x192.png" +:+ ",";
      "      " +:+ dq +:+ "sizes" +:+ dq +:+ ": " +:+ json_string "192x192" +:+ ",";
      "      " +:+ dq +:+ "type" +:+ dq +:+ ": " +:+ json_string "image/png";
      "    },";
      "    {";
      "      " +:+ dq +:+ "src" +:+ dq +:+ ": " +:+ json_string "icon-512x512.png" +:+ ",";
      "      " +:+ dq +:+ "sizes" +:+ dq +:+ ": " +:+ json_string "512x512" +:+ ",";
      "      " +:+ dq +:+ "type" +:+ dq +:+ ": " +:+ json_string "image/png";
      "    }";
      "  ]";
      "}" ].

(** [appDir] and [zipPath] of the handler, from [__dirname], the sanitized
    name and the unique id. *)
Definition workspace_path (dirname name id : string) : string :=
  path_join [dirname; "generated-apps"; name +:+ "-" +:+ id].

Definition archive_path (dirname name id : string) : string :=
  path_join [dirname; "generated-apps"; name +:+ "-" +:+ id +:+ ".zip"].





(** The options the handler passes to [page.goto] and to [puppeteer.launch]. *)
Definition goto_opts : goto_options :=
  {| waitUntil := NetworkIdle0; timeout := 60000 |}.

Definition launch_args : list string := ["--no-sandbox"; "--disable-setuid-sandbox"].

Section Service.

(** The export of sanitize-filename, the directory of the server script
    ([__dirname]) and the environment of the request. *)
Variable sanitize : string -> string.
Variable dirname : string.
Variable w : world.

Definition failing (x : site) (e : exn) : M unit :=
  if fault w x then throw e else ret tt.

(** *** sanitize-filename and uuid *)

Definition sanitizeFilename (v : js_value) : M string :=
  match v with
  | JStr s => ret (sanitize s)
  | _ => throw InputMustBeString
  end.

Definition uuidv4 : M string := ret (uuid w).

(** *** fs-extra *)

(** [fs.ensureDir(p)]: afterwards [p] is a directory; it is rejected when a
    file is in the way. *)
Definition ensureDir (p : string) : M unit :=
  emit (EnsureDir p);;
  failing AtEnsureDir FsError;;
  s <- get;;
  if is_file (fs s) p then throw FsError
  else modify (with_fs (insert p Dir)).

Definition writeFile (p data : string) : M unit :=
  emit (WriteFile p);;
  failing (AtWriteFile p) FsError;;
  s <- get;;
  if is_dir (fs s) p then throw FsError
  else modify (with_fs (insert p (File (Bytes data)))).

Definition copyFile (src dst : string) : M unit :=
  emit (CopyFile src dst);;
  failing (AtCopyFile dst) FsError;;
  s <- get;;
  match fs s !! src with
  | Some (File b) =>
      if is_dir (fs s) dst then throw FsError
      else modify (with_fs (insert dst (File b)))
  | _ => throw FsError
  end.

(** [fs.remove(p)]: the node at [p] and everything below it. The handler
    does not wait for the promise. *)
Definition remove (p : string) : M unit :=
  emit (Remove p);;
  modify (with_fs (filter (fun kv => kv.1 <> p /\ ~ inside p kv.1))).

(** *** puppeteer *)

Definition launch (args : list string) : M unit :=
  emit (Launch args);; failing AtLaunch BrowserError.

Definition newPage : M unit :=
  emit NewPage;; failing AtNewPage BrowserError.

(** [page.goto(url, options)]; the result is the document the page holds
    once navigation has succeeded. *)
Definition goto (url : js_value) (o : goto_options) : M string :=
  emit (Goto url o);;
  match url with
  | JStr u =>
      match snd (navigate o (web w u (waitUntil o))) with
      | inl e => throw e
      | inr html => ret html
      end
  | _ => throw ProtocolError
  end.

Definition page_content (page : string) : M string :=
  emit PageContent;; failing AtContent BrowserError;; ret page.

Definition browser_close : M unit :=
  emit CloseBrowser;; failing AtClose BrowserError.

(** *** The response object *)

(** [res.status(c)]. [statusCode] stands for the status line of the
    response: once the headers are sent it no longer changes. *)
Definition status (c : N) : M unit :=
  modify (with_res (fun r =>
    {| statusCode := if headersSent r then statusCode r else c;
       headersSent := headersSent r;
       contentDisposition := contentDisposition r; resBody := resBody r |})).

(** [res.json({ error: msg })]; it throws once the headers are sent. *)
Definition json (msg : string) : M unit :=
  s <- get;;
  if headersSent (res s) then throw HeadersAlreadySent
  else modify (with_res (fun r =>
    {| statusCode := statusCode r; headersSent := true;
       contentDisposition := contentDisposition r; resBody := JsonError msg |})).

(** [res.download(p, name, done)] hands the transfer to the event loop. *)
Definition download (p name : string) (done : option exn -> M unit) : M continuation :=
  emit (SendFile p name);; ret (Sending p name done).

Definition stream (name : string) (b : body) : M unit :=
  modify (with_res (fun r =>
    {| statusCode := statusCode r; headersSent := true;
       contentDisposition := Some name; resBody := b |})).

(** The transfer itself, run by the event loop after the handler returned:
    [done] is called outside the handler's [try]. *)
Definition send_file (p name : string) (done : option exn -> M unit) : M unit :=
  s <- get;;
  match fs s !! p with
  | Some (File b) =>
      match transfer w with
      | Delivered => stream name (FileStream b);; done None
      | AbortedMidStream => stream name PartialStream;; done (Some RequestAborted)
      | FailsBeforeHeaders => done (Some SendError)
      end
  | _ => done (Some SendError)
  end.

(** *** [generateAppFiles] *)

Definition generateAppFiles (appDir appName content : string) (websiteUrl : js_value)
  : M unit :=
  writeFile (path_join [appDir; "index.html"]) (indexHtml appName content);;
  writeFile (path_join [appDir; "manifest.json"]) (manifestJson appName);;
  writeFile (path_join [appDir; "sw.js"]) (serviceWorker appName);;
  writeFile (path_join [appDir; "app.js"]) appJs;;
  writeFile (path_join [appDir; "styles.css"]) stylesCss;;
  copyFile (path_join [dirname; "placeholder-icon-192x192.png"])
           (path_join [appDir; "icon-192x192.png"]);;
  copyFile (path_join [dirname; "placeholder-icon-512x512.png"])
           (path_join [appDir; "icon-512x512.png"]).

(** *** [createZipArchive]

    The write stream creates the output file; the promise is rejected when
    the archive emits 'error' and resolved when the stream closes, the
    archive then holding the files below [sourceDir]. *)
Definition createZipArchive (sourceDir outPath : string) : M unit :=
  emit (CreateZip sourceDir outPath);;
  modify (with_fs (insert outPath (File (Bytes EmptyString))));;
  failing AtArchive ArchiverError;;
  s <- get;;
  modify (with_fs (insert outPath (File (ZipData (dir_entries sourceDir (fs s)))))).

(** *** The handler of [POST /generate-app] *)

(** The callback given to [res.download]. *)
Definition download_done (appDir zipPath : string) (err : option exn) : M unit :=
  match err with
  | Some e =>
      console_error "Error sending file:" e;;
      status 500;;
      json "Error sending file"
  | None => ret tt
  end;;
  remove appDir;;
  remove zipPath.

(** The body of the handler's [try] block. *)
Definition attempt (req : request) : M continuation :=
  let appName := appName req in
  let websiteUrl := websiteUrl req in
  if negb (truthy appName) || negb (truthy websiteUrl) then
    status 400;; json "Missing required fields";; ret Finished
  else
    sanitizedAppName <- sanitizeFilename appName;;
    uniqueId <- uuidv4;;
    let appDir := workspace_path dirname sanitizedAppName uniqueId in
    ensureDir appDir;;
    launch launch_args;;
    newPage;;
    page <- goto websiteUrl goto_opts;;
    content <- page_content page;;
    browser_close;;
    generateAppFiles appDir sanitizedAppName content websiteUrl;;
    let zipPath := archive_path dirname sanitizedAppName uniqueId in
    createZipArchive appDir zipPath;;
    download zipPath (sanitizedAppName +:+ ".zip") (download_done appDir zipPath).

(** The handler's [catch] block. *)
Definition recover (error : exn) : M continuation :=
  console_error "Error generating app:" error;;
  status 500;;
  json "Internal server error";;
  ret Finished.

Definition generate_app (req : request) : M continuation :=
  try_catch (attempt req) recover.

(** One request, from the handler to the end of the transfer. *)
Definition serve (req : request) : M unit :=
  k <- generate_app req;;
  match k with
  | Finished => ret tt
  | Sending p name done => send_file p name done
  end.

Definition boot (disk : gmap string node) : state :=
  {| fs := disk; res := fresh_response; console := []; trace := [] |}.

Definition run (req : request) (disk : gmap string node) : outcome unit * state :=
  serve req (boot disk).

End Service.

(** ** Notions used to state the properties *)

(** The events of bundle synthesis and of archiving. *)
Definition writes (e : event) : bool :=
  match e with
  | WriteFile _ | CopyFile _ _ | CreateZip _ _ => true
  | _ => false
  end.

Definition is_remove (e : event) : bool :=
  match e with
  | Remove _ => true
  | _ => false
  end.

(** The capture stage fails: the URL is no string, or navigation with the
    handler's options ends in an error (timeout or unreachable page). *)
Definition capture_fails (w : world) (url : js_value) : bool :=
  match url with
  | JStr u =>
      match snd (navigate goto_opts (web w u (waitUntil goto_opts))) with
      | inl _ => true
      | inr _ => false
      end
  | _ => true
  end.

(** Nothing lies below [d] on [disk]: the workspace named with a new unique
    id is new. *)
Definition fresh_workspace (disk : gmap string node) (d : string) : Prop :=
  forall p, inside d p -> disk !! p = None.

(** The names of the files of a bundle. *)
Definition bundle_names : list string :=
  ["index.html"; "manifest.json"; "sw.js"; "app.js"; "styles.css";
   "icon-192x192.png"; "icon-512x512.png"].

(** The bundle for a name and a captured document, with the two icons. *)
Definition bundle (name html : string) (icon192 icon512 : blob) : list (string * blob) :=
  [("index.html", Bytes (indexHtml name html));
   ("manifest.json", Bytes (manifestJson name));
   ("sw.js", Bytes (serviceWorker name));
   ("app.js", Bytes appJs);
   ("styles.css", Bytes stylesCss);
   ("icon-192x192.png", icon192);
   ("icon-512x512.png", icon512)].

(** The file system as [generateAppFiles] and the opening of the archive's
    write stream leave it, from the disk the request started on. *)
Definition staged (d zip name html : string) (icon192 icon512 : blob)
    (disk : gmap string node) : gmap string node :=
  <[zip := File (Bytes EmptyString)]>
    (<[path_join [d; "icon-512x512.png"] := File icon512]>
    (<[path_join [d; "icon-192x192.png"] := File icon192]>
    (<[path_join [d; "styles.css"] := File (Bytes stylesCss)]>
    (<[path_join [d; "app.js"] := File (Bytes appJs)]>
    (<[path_join [d; "sw.js"] := File (Bytes (serviceWorker name))]>
    (<[path_join [d; "manifest.json"] := File (Bytes (manifestJson name))]>
    (<[path_join [d; "index.html"] := File (Bytes (indexHtml name html))]>
    (<[d := Dir]> disk)))))))).

(** The elements of the markup document. *)
Definition container_open : string := "<div id=" +:+ dq +:+ "app-content" +:+ dq +:+ ">".
Definition container_close : string := "</div>".
Definition manifest_link : string :=
  "<link rel=" +:+ dq +:+ "manifest" +:+ dq +:+ " href=" +:+ dq +:+ "manifest.json" +:+ dq +:+ ">".
Definition stylesheet_link : string :=
  "<link rel=" +:+ dq +:+ "stylesheet" +:+ dq +:+ " href=" +:+ dq +:+ "styles.css" +:+ dq +:+ ">".
Definition script_tag : string :=
  "<script src=" +:+ dq +:+ "app.js" +:+ dq +:+ "></script>".

(** [doc] holds [html] unchanged between the opening and the closing tag of
    the container (with the template's line breaks and indentation around
    it), the two links before the container and the script after it. *)
Definition embeds (doc html : string) : Prop :=
  exists pre post,
    doc = pre +:+ container_open +:+ nl +:+ "      " +:+ html
              +:+ nl +:+ "    " +:+ container_close +:+ post
    /\ occurs_in manifest_link pre
    /\ occurs_in stylesheet_link pre
    /\ occurs_in script_tag post.

(** ** Sample environments *)

Definition sample_uuid : string := "110ec58a-a0f2-4ac4-8393-c866d813b8d1".

Definition sample_page : string := "<html><head></head><body><h1>Hi</h1></body></html>".

Definition sample_disk : gmap string node :=
  <["/srv/app/placeholder-icon-192x192.png" := File (Bytes "PNG-192")]>
    (<["/srv/app/placeholder-icon-512x512.png" := File (Bytes "PNG-512")]>
    (<["/srv/app" := Dir]> ∅)).

(** Every collaborator succeeds and the page is idle after 1.2 s. *)
Definition calm : world :=
  {| uuid := sample_uuid;
     fault := fun _ => false;
     web := fun _ _ => Settles 1200 sample_page;
     transfer := Delivered |}.

(** The host of the URL does not resolve. *)
Definition offline : world :=
  {| uuid := sample_uuid;
     fault := fun _ => false;
     web := fun _ _ => Unreachable 35;
     transfer := Delivered |}.

(** The page never reaches network idle. *)
Definition busy : world :=
  {| uuid := sample_uuid;
     fault := fun _ => false;
     web := fun _ _ => NeverSettles;
     transfer := Delivered |}.

(** The archive cannot be read back when it is to be sent. *)
Definition unsendable : world :=
  {| uuid := sample_uuid;
     fault := fun _ => false;
     web := fun _ _ => Settles 1200 sample_page;
     transfer := FailsBeforeHeaders |}.

(** The archiver emits an error. *)
Definition jammed : world :=
  {| uuid := sample_uuid;
     fault := fun x => match x with AtArchive => true | _ => false end;
     web := fun _ _ => Settles 1200 sample_page;
     transfer := Delivered |}.

(** The client goes away while the archive is being sent. *)
Definition hasty : world :=
  {| uuid := sample_uuid;
     fault := fun _ => false;
     web := fun _ _ => Settles 1200 sample_page;
     transfer := AbortedMidStream |}.


Definition sample_request : request :=
  {| appName := JStr "My App"; websiteUrl := JStr "https://example.com" |}.

Definition slash_request : request :=
  {| appName := JStr "/"; websiteUrl := JStr "https://example.com" |}.

Definition nameless_request : request :=
  {| appName := JStr EmptyString; websiteUrl := JStr "https://example.com" |}.

Definition sample_workspace : string :=
  "/srv/app/generated-apps/My App-110ec58a-a0f2-4ac4-8393-c866d813b8d1".

(** ** Notions used to state further properties *)

(** The calls of a request that is served to the end, in the order of the
    handler. *)
Definition stages (dirname name id : string) (url : js_value) : list event :=
  let d := workspace_path dirname name id in
  let z := archive_path dirname name id in
  [ EnsureDir d;
    Launch launch_args;
    NewPage;
    Goto url goto_opts;
    PageContent;
    CloseBrowser;
    WriteFile (path_join [d; "index.html"]);
    WriteFile (path_join [d; "manifest.json"]);
    WriteFile (path_join [d; "sw.js"]);
    WriteFile (path_join [d; "app.js"]);
    WriteFile (path_join [d; "styles.css"]);
    CopyFile (path_join [dirname; "placeholder-icon-192x192.png"])
             (path_join [d; "icon-192x192.png"]);
    CopyFile (path_join [dirname; "placeholder-icon-512x512.png"])
             (path_join [d; "icon-512x512.png"]);
    CreateZip d z;
    SendFile z (name +:+ ".zip");
    Remove d;
    Remove z ].

(** The file system without the node at [p] and without what lies below it:
    what [remove p] leaves. *)
Definition without (p : string) (m : gmap string node) : gmap string node :=
  filter (fun kv => kv.1 <> p /\ ~ inside p kv.1) m.


(** The characters [JSON.stringify] writes as they are. *)
Definition is_plain (c : ascii) : bool :=
  negb (code c <? 32) && negb (code c =? 34) && negb (code c =? 92).

(** ** The form of the frontend ([App.tsx]) *)

(** The JSON body the form posts. *)
Definition post_body (name url : string) : request :=
  {| appName := JStr name; websiteUrl := JStr url |}.

Module App.

(** [process.env.REACT_APP_API_URL || 'http://localhost:3000']. *)
Definition API_URL (env : option string) : string :=
  match env with
  | Some s => if (s =? EmptyString)%string then "http://localhost:3000" else s
  | None => "http://localhost:3000"
  end.

(** What [axios.post] rejects with. *)
Inductive failure : Type :=
  | BadStatus (status : N)     (* a response outside 200-299 *)
  | NetworkError.              (* no response *)

Inductive toast : Type :=
  | ToastSuccess (msg : string)
  | ToastError (msg : string).

(** The anchor element the handler builds. *)
Record link : Type := {
  href : body;                 (* the object URL of the blob, by its contents *)
  download : string
}.

(** The state of the component, the children the handler adds to
    [document.body], and what the user and the network have seen. *)
Record ui : Type := {
  appName : string;
  websiteUrl : string;
  isLoading : bool;
  prevented : bool;                      (* [e.preventDefault()] was called *)
  children : list link;
  posts : list (string * request);
  saved : list (string * body);          (* files the browser saved *)
  toasts : list toast;
  errors : list failure                  (* [console.error] *)
}.

Definition C (A : Type) : Type := ui -> (failure + A) * ui.

Definition ret {A} (a : A) : C A := fun s => (inr a, s).

Definition bind {A B} (m : C A) (k : A -> C B) : C B :=
  fun s => match m s with
           | (inr a, s') => k a s'
           | (inl e, s') => (inl e, s')
           end.

Definition try_catch {A} (m : C A) (h : failure -> C A) : C A :=
  fun s => match m s with
           | (inr a, s') => (inr a, s')
           | (inl e, s') => h e s'
           end.

(** [try { m } finally { f }]. *)
Definition try_finally {A} (m : C A) (f : C unit) : C A :=
  fun s => match m s with
           | (r, s') => match f s' with
                        | (inr _, s'') => (r, s'')
                        | (inl e, s'') => (inl e, s'')
                        end
           end.

Definition read : C ui := fun s => (inr s, s).

Definition update (f : ui -> ui) : C unit := fun s => (inr tt, f s).

Definition preventDefault : C unit :=
  update (fun s =>
    {| appName := appName s; websiteUrl := websiteUrl s; isLoading := isLoading s;
       prevented := true; children := children s; posts := posts s;
       saved := saved s; toasts := toasts s; errors := errors s |}).

Definition setIsLoading (b : bool) : C unit :=
  update (fun s =>
    {| appName := appName s; websiteUrl := websiteUrl s; isLoading := b;
       prevented := prevented s; children := children s; posts := posts s;
       saved := saved s; toasts := toasts s; errors := errors s |}).

(** [axios.post(url, data, { responseType: 'blob' })] over a network that
    answers a request or not: the promise is resolved for a status from 200
    to 299 and rejected otherwise. *)
Definition axios_post (net : string -> request -> option response)
    (url : string) (data : request) : C response :=
  fun s =>
    let s' :=
      {| appName := appName s; websiteUrl := websiteUrl s; isLoading := isLoading s;
         prevented := prevented s; children := children s;
         posts := (posts s ++ [(url, data)])%list;
         saved := saved s; toasts := toasts s; errors := errors s |} in
    match net url data with
    | None => (inl NetworkError, s')
    | Some r =>
        if (200 <=? statusCode r) && (statusCode r <? 300) then (inr r, s')
        else (inl (BadStatus (statusCode r)), s')
    end.

Definition appendChild (l : link) : C unit :=
  update (fun s =>
    {| appName := appName s; websiteUrl := websiteUrl s; isLoading := isLoading s;
       prevented := prevented s; children := (children s ++ [l])%list;
       posts := posts s; saved := saved s; toasts := toasts s; errors := errors s |}).

(** [link.click()]: the browser saves the target under the name of the
    [download] attribute. *)
Definition click (l : link) : C unit :=
  update (fun s =>
    {| appName := appName s; websiteUrl := websiteUrl s; isLoading := isLoading s;
       prevented := prevented s; children := children s; posts := posts s;
       saved := (saved s ++ [(download l, href l)])%list;
       toasts := toasts s; errors := errors s |}).

(** [link.remove()], for the child added last. *)
Definition remove_link : C unit :=
  update (fun s =>
    {| appName := appName s; websiteUrl := websiteUrl s; isLoading := isLoading s;
       prevented := prevented s; children := removelast (children s);
       posts := posts s; saved := saved s; toasts := toasts s; errors := errors s |}).

Definition show (t : toast) : C unit :=
  update (fun s =>
    {| appName := appName s; websiteUrl := websiteUrl s; isLoading := isLoading s;
       prevented := prevented s; children := children s; posts := posts s;
       saved := saved s; toasts := (toasts s ++ [t])%list; errors := errors s |}).

Definition console_error (e : failure) : C unit :=
  update (fun s =>
    {| appName := appName s; websiteUrl := websiteUrl s; isLoading := isLoading s;
       prevented := prevented s; children := children s; posts := posts s;
       saved := saved s; toasts := toasts s; errors := (errors s ++ [e])%list |}).

Declare Scope ui_scope.
Delimit Scope ui_scope with ui.
Notation "x <- m ;; k" := (bind m (fun x => k))
  (at level 100, m at next level, right associativity) : ui_scope.
Notation "m ;; k" := (bind m (fun _ => k))
  (at level 100, right associativity) : ui_scope.
Local Open Scope ui_scope.

(** [handleSubmit], with the network and the environment of the build. *)
Definition handleSubmit (net : string -> request -> option response)
    (env : option string) : C unit :=
  preventDefault;;
  setIsLoading true;;
  try_finally
    (try_catch
       (s <- read;;
        response <- axios_post net (API_URL env +:+ "/generate-app")
                      (post_body (appName s) (websiteUrl s));;
        let link := {| href := resBody response;
                       download := appName s +:+ ".zip" |} in
        appendChild link;;
        click link;;
        remove_link;;
        show (ToastSuccess "Web app generated successfully!"))
       (fun err =>
          console_error err;;
          show (ToastError "An error occurred while generating the app. Please try again.")))
    (setIsLoading false).

(** The form as first rendered, with what the user typed. *)
Definition typed (name url : string) : ui :=
  {| appName := name; websiteUrl := url; isLoading := false; prevented := false;
     children := []; posts := []; saved := []; toasts := []; errors := [] |}.

End App.

(** The network in front of the backend: the response of the handler to
    the posted body, from a given disk. *)
Definition backend (sanitize : string -> string) (dirname : string) (w : world)
    (disk : gmap string node) : string -> request -> option response :=
  fun _ req => Some (res (snd (run sanitize dirname w req disk))).

(** ** Further samples *)

(** A request whose name is a number. *)
Definition numeric_request : request :=
  {| appName := JNum 7; websiteUrl := JStr "https://example.com" |}.


(** * Properties *)

(** ** The sanitizer on sample names *)

Example sanitize_plain : sanitize_filename "My App" = "My App".
Proof. reflexivity. Qed.

Example sanitize_traversal : sanitize_filename "../../etc/passwd" = "....etcpasswd".
Proof. reflexivity. Qed.

Example sanitize_slashes : sanitize_filename "///" = EmptyString.
Proof. reflexivity. Qed.

Example sanitize_dots : sanitize_filename ".." = EmptyString.
Proof. reflexivity. Qed.

Example sanitize_device : sanitize_filename "CON.txt" = EmptyString.
Proof. reflexivity. Qed.

Example sanitize_trailing : sanitize_filename "app. ." = "app".
Proof. reflexivity. Qed.

(** ** Strings *)

Section Strings.

Lemma append_nil_l (s : string) : EmptyString +:+ s = s.
Proof. reflexivity. Qed.

Lemma append_cons (c : ascii) (s t : string) : String c s +:+ t = String c (s +:+ t).
Proof. reflexivity. Qed.

Lemma append_assoc (a b c : string) : (a +:+ b) +:+ c = a +:+ (b +:+ c).
Proof.
  induction a as [|x a IH]; [reflexivity|].
  rewrite !append_cons. now rewrite IH.
Qed.

Lemma append_empty_r (s : string) : s +:+ EmptyString = s.
Proof.
  induction s as [|c s IH]; [reflexivity|].
  rewrite append_cons. now rewrite IH.
Qed.

Lemma length_append (a b : string) :
  String.length (a +:+ b) = (String.length a + String.length b)%nat.
Proof.
  induction a as [|x a IH]; [reflexivity|].
  rewrite append_cons. cbn [String.length]. now rewrite IH.
Qed.

Lemma strip_prefix_append (p r : string) : strip_prefix p (p +:+ r) = Some r.
Proof.
  induction p as [|c p IH]; [reflexivity|].
  rewrite append_cons. cbn [strip_prefix]. now rewrite Ascii.eqb_refl.
Qed.

Lemma strip_prefix_Some (p s r : string) : strip_prefix p s = Some r -> s = p +:+ r.
Proof.
  revert s; induction p as [|c p IH]; intros s H; cbn [strip_prefix] in H.
  - now inversion H.
  - destruct s as [|d s]; [discriminate|].
    destruct (Ascii.eqb_spec c d) as [->|]; [|discriminate].
    rewrite append_cons. now rewrite (IH _ H).
Qed.


Lemma strip_prefix_sibling (d x y : string) :
  strip_prefix x y = None -> strip_prefix (d +:+ x) (d +:+ y) = None.
Proof.
  intros H; induction d as [|c d IH]; [exact H|].
  rewrite !append_cons. cbn [strip_prefix]. now rewrite Ascii.eqb_refl.
Qed.

Lemma strip_prefix_self (d x : string) :
  x <> EmptyString -> strip_prefix (d +:+ x) d = None.
Proof.
  intros H; induction d as [|c d IH].
  - destruct x; [congruence | reflexivity].
  - rewrite append_cons. cbn [strip_prefix]. now rewrite Ascii.eqb_refl.
Qed.

End Strings.

Section Entries.
Implicit Types (m : gmap string node) (d k : string).

Lemma entry_of_outside d k n : ~ inside d k -> entry_of d (k, n) = None.
Proof.
  unfold inside, entry_of; intros H; cbn.
  destruct n; [reflexivity|].
  destruct (strip_prefix (d +:+ "/") k); [exfalso; apply H; discriminate | reflexivity].
Qed.

Lemma dir_entries_insert_fresh d k n m :
  m !! k = None ->
  dir_entries d (<[k := n]> m) ≡ₚ option_list (entry_of d (k, n)) ++ dir_entries d m.
Proof.
  intros H. unfold dir_entries.
  rewrite (map_to_list_insert m k n H). cbn -[entry_of].
  destruct (entry_of d (k, n)); reflexivity.
Qed.

Lemma dir_entries_delete_outside d k m :
  ~ inside d k -> dir_entries d (delete k m) ≡ₚ dir_entries d m.
Proof.
  intros H. destruct (m !! k) as [n|] eqn:E.
  - unfold dir_entries. rewrite <- (map_to_list_delete m k n E). cbn -[entry_of].
    now rewrite (entry_of_outside d k n H).
  - now rewrite delete_id.
Qed.

Lemma dir_entries_insert_outside d k n m :
  ~ inside d k -> dir_entries d (<[k := n]> m) ≡ₚ dir_entries d m.
Proof.
  intros H. rewrite <- insert_delete_eq.
  rewrite dir_entries_insert_fresh by apply lookup_delete_eq.
  rewrite (entry_of_outside d k n H). cbn -[entry_of].
  now apply dir_entries_delete_outside.
Qed.

Lemma dir_entries_fresh d m :
  (forall p, inside d p -> m !! p = None) -> dir_entries d m = [].
Proof.
  intros H. unfold dir_entries.
  assert (G : forall kv, kv ∈ map_to_list m -> entry_of d kv = None).
  { intros [k n] Hin. apply elem_of_map_to_list in Hin.
    destruct (decide (inside d k)) as [Hi|Hi].
    - rewrite (H k Hi) in Hin. discriminate.
    - now apply entry_of_outside. }
  induction (map_to_list m) as [|kv l IH]; [reflexivity|].
  cbn -[entry_of]. rewrite (G kv) by (left). apply IH.
  intros kv' Hin. apply G. now right.
Qed.
End Entries.

(** ** Paths and directory listings *)

Section Paths.
Implicit Types (d x y : string).

Lemma path_join2 d x : path_join [d; x] = d +:+ String "/" x.
Proof. reflexivity. Qed.

Lemma archive_path_zip dirname name id :
  archive_path dirname name id = workspace_path dirname name id +:+ ".zip".
Proof.
  unfold archive_path, workspace_path, path_join, String.concat.
  rewrite !append_assoc. reflexivity.
Qed.



Lemma child_inside d x : inside d (d +:+ String "/" x).
Proof.
  unfold inside. change (String "/" x) with ("/" +:+ x).
  rewrite <- append_assoc, strip_prefix_append. discriminate.
Qed.

Lemma self_outside d : ~ inside d d.
Proof. unfold inside. rewrite strip_prefix_self; [tauto | discriminate]. Qed.

Lemma zip_outside d : ~ inside d (d +:+ ".zip").
Proof. unfold inside. rewrite strip_prefix_sibling; [tauto | reflexivity]. Qed.

Lemma entry_of_child d r b : entry_of d (d +:+ String "/" r, File b) = Some (r, b).
Proof.
  unfold entry_of; cbn [fst snd]. change (String "/" r) with ("/" +:+ r).
  rewrite <- append_assoc, strip_prefix_append. reflexivity.
Qed.

Lemma child_ne_self d x : d +:+ String "/" x <> d.
Proof.
  intros E. apply (f_equal String.length) in E.
  rewrite length_append in E. cbn [String.length] in E. lia.
Qed.

Lemma suffix_ne d x y : x <> y -> d +:+ x <> d +:+ y.
Proof. intros H E. apply H. exact (String.app_inj d _ _ E). Qed.

(** The placeholder icons lie next to the server script, outside every
    workspace. *)
Lemma placeholder_ne_workspace (dirname icon name id rest : string) :
  dirname +:+ String "/" (String "p" icon) <> workspace_path dirname name id +:+ rest.
Proof.
  unfold workspace_path, path_join, String.concat.
  rewrite !append_assoc. intros E.
  apply String.app_inj in E. discriminate E.
Qed.

Lemma placeholder_ne_dir (dirname icon name id : string) :
  dirname +:+ String "/" (String "p" icon) <> workspace_path dirname name id.
Proof.
  rewrite <- (append_empty_r (workspace_path dirname name id)).
  apply placeholder_ne_workspace.
Qed.

Lemma is_dir_insert_ne (m : gmap string node) (k p : string) (n : node) :
  k <> p -> is_dir (<[k := n]> m) p = is_dir m p.
Proof. intros H. unfold is_dir. now rewrite lookup_insert_ne. Qed.

Lemma is_dir_absent (m : gmap string node) (p : string) :
  m !! p = None -> is_dir m p = false.
Proof. intros H. unfold is_dir. now rewrite H. Qed.

End Paths.

(** Two paths below the same directory differ when their last parts do; a
  path below a directory differs from the directory. *)
Ltac path_ne :=
first
  [ apply child_ne_self
  | apply not_eq_sym; apply child_ne_self
  | apply suffix_ne; discriminate ].

Section Bundle.
Implicit Types (m : gmap string node) (d k : string).

Lemma elem_of_dir_entries d m r b :
  (r, b) ∈ dir_entries d m <-> m !! (d +:+ String "/" r) = Some (File b).
Proof.
  unfold dir_entries. rewrite list_elem_of_omap. split.
  - intros [[k n] [Hin He]]. apply elem_of_map_to_list in Hin.
    unfold entry_of in He; cbn [fst snd] in He.
    destruct n as [|b']; [discriminate|].
    destruct (strip_prefix (d +:+ "/") k) as [r'|] eqn:Hs; [|discriminate].
    cbn in He. injection He as -> ->.
    apply strip_prefix_Some in Hs. subst k.
    rewrite append_assoc in Hin. exact Hin.
  - intros H. exists (d +:+ String "/" r, File b). split.
    + now apply elem_of_map_to_list.
    + apply entry_of_child.
Qed.

Lemma staged_bundle d name html i1 i2 (disk : gmap string node) :
  fresh_workspace disk d ->
  dir_entries d (staged d (d +:+ ".zip") name html i1 i2 disk)
  ≡ₚ bundle name html i1 i2.
Proof.
  intros Hfresh. unfold staged. rewrite !path_join2.
  assert (Hnew : forall x, disk !! (d +:+ String "/" x) = None).
  { intros x. apply Hfresh, child_inside. }
  rewrite dir_entries_insert_outside by apply zip_outside.
  do 7 (rewrite dir_entries_insert_fresh
          by (rewrite ?lookup_insert_ne by path_ne; apply Hnew);
        rewrite entry_of_child; cbn [option_list app]).
  rewrite dir_entries_insert_outside by apply self_outside.
  rewrite (dir_entries_fresh d disk Hfresh).
  symmetry. exact (Permutation_rev (bundle name html i1 i2)).
Qed.

Lemma staged_index d name html i1 i2 (disk : gmap string node) :
  staged d (d +:+ ".zip") name html i1 i2 disk !! (d +:+ String "/" "index.html")
  = Some (File (Bytes (indexHtml name html))).
Proof.
  unfold staged. rewrite !path_join2.
  rewrite !lookup_insert_ne by path_ne.
  apply lookup_insert_eq.
Qed.
End Bundle.

Section Markup.

(** Both sides are the same pieces, grouped differently. *)
Ltac pieces :=
  cbv [lines String.concat manifest_link stylesheet_link script_tag
       container_open container_close indexHtml];
  rewrite ?append_assoc; reflexivity.

Lemma indexHtml_embeds (name html : string) : embeds (indexHtml name html) html.
Proof.
  exists
    (lines
       [ EmptyString;
         "<!DOCTYPE html>";
         "<html lang=" +:+ dq +:+ "en" +:+ dq +:+ ">";
         "<head>";
         "    <meta charset=" +:+ dq +:+ "UTF-8" +:+ dq +:+ ">";
         "    <meta name=" +:+ dq +:+ "viewport" +:+ dq +:+ " content=" +:+ dq
           +:+ "width=device-width, initial-scale=1.0" +:+ dq +:+ ">";
         "    <title>" +:+ name +:+ "</title>";
         "    " +:+ manifest_link;
         "    <meta name=" +:+ dq +:+ "theme-color" +:+ dq +:+ " content=" +:+ dq
           +:+ "#000000" +:+ dq +:+ ">";
         "    " +:+ stylesheet_link;
         "</head>";
         "<body>";
         "    " ]),
    (lines [ EmptyString; "    " +:+ script_tag; "</body>"; "</html>" ]).
  repeat split.
  - pieces.
  - exists
      (lines
         [ EmptyString;
           "<!DOCTYPE html>";
           "<html lang=" +:+ dq +:+ "en" +:+ dq +:+ ">";
           "<head>";
           "    <meta charset=" +:+ dq +:+ "UTF-8" +:+ dq +:+ ">";
           "    <meta name=" +:+ dq +:+ "viewport" +:+ dq +:+ " content=" +:+ dq
             +:+ "width=device-width, initial-scale=1.0" +:+ dq +:+ ">";
           "    <title>" +:+ name +:+ "</title>";
           "    " ]),
      (lines
         [ EmptyString;
           "    <meta name=" +:+ dq +:+ "theme-color" +:+ dq +:+ " content=" +:+ dq
             +:+ "#000000" +:+ dq +:+ ">";
           "    " +:+ stylesheet_link;
           "</head>";
           "<body>";
           "    " ]).
    pieces.
  - exists
      (lines
         [ EmptyString;
           "<!DOCTYPE html>";
           "<html lang=" +:+ dq +:+ "en" +:+ dq +:+ ">";
           "<head>";
           "    <meta charset=" +:+ dq +:+ "UTF-8" +:+ dq +:+ ">";
           "    <meta name=" +:+ dq +:+ "viewport" +:+ dq +:+ " content=" +:+ dq
             +:+ "width=device-width, initial-scale=1.0" +:+ dq +:+ ">";
           "    <title>" +:+ name +:+ "</title>";
           "    " +:+ manifest_link;
           "    <meta name=" +:+ dq +:+ "theme-color" +:+ dq +:+ " content=" +:+ dq
             +:+ "#000000" +:+ dq +:+ ">";
           "    " ]),
      (lines [ EmptyString; "</head>"; "<body>"; "    " ]).
    pieces.
  - exists (nl +:+ "    "), (lines [ EmptyString; "</body>"; "</html>" ]).
    pieces.
Qed.

Lemma truthy_string (s : string) : s <> EmptyString -> truthy (JStr s) = true.
Proof. destruct s; [congruence | reflexivity]. Qed.

(** The two causes of a failed capture. *)
Lemma capture_fails_causes (w : world) (u : string) :
  (web w u NetworkIdle0 = NeverSettles
   \/ (exists t, web w u NetworkIdle0 = Unreachable t)
   \/ (exists t html, web w u NetworkIdle0 = Settles t html /\ 60000 < t)) ->
  capture_fails w (JStr u) = true.
Proof.
  unfold capture_fails. cbn [waitUntil goto_opts].
  intros [-> | [[t ->] | (t & html & -> & Ht)]]; cbn.
  - reflexivity.
  - now destruct (60000 <? t).
  - apply N.ltb_lt in Ht. now rewrite Ht.
Qed.

Lemma navigate_captures (w : world) (u html : string) :
  snd (navigate goto_opts (web w u NetworkIdle0)) = inr html ->
  exists t, web w u NetworkIdle0 = Settles t html /\ t <= 60000.
Proof.
  destruct (web w u NetworkIdle0) as [t h|t|]; cbn.
  - destruct (60000 <? t) eqn:E; cbn; [discriminate|].
    intros [= ->]. exists t. split; [reflexivity | apply N.ltb_ge in E; exact E].
  - destruct (60000 <? t); discriminate.
  - discriminate.
Qed.
End Markup.

Section Uuid.




End Uuid.

(** ** Symbolic execution of handler code *)

Ltac unfold_ops_in H :=
cbv beta iota zeta delta
  [run serve boot generate_app attempt recover try_catch bind ret throw get modify emit
   console_error failing sanitizeFilename uuidv4 ensureDir writeFile copyFile remove
   launch newPage goto page_content browser_close status json download stream
   send_file generateAppFiles createZipArchive download_done
   with_fs with_res with_console with_trace
   fs res console trace statusCode headersSent contentDisposition resBody
   appName websiteUrl fresh_response snd fst negb orb] in H.

(** The subterm on which the evaluation of [t] is blocked. *)
Ltac stuck t :=
lazymatch t with
| match ?x with _ => _ end => stuck x
| ?f _ => stuck_app f t
| _ => t
end
with stuck_app f t :=
lazymatch f with
| match ?x with _ => _ end => stuck x
| ?g _ => stuck_app g t
| _ => t
end.

Ltac exec_step H :=
cbv beta iota zeta in H;
try rewrite lookup_insert_eq in H;
lazymatch type of H with
| _ = (_, _) => fail
| _ = ?t => let x := stuck t in destruct x eqn:?
end.

(** [exec H], for [H : r = m s] with [s] a state given by its fields: every
  path through [m], with the conditions met on the way as hypotheses. *)
Ltac exec H :=
unfold_ops_in H; repeat exec_step H; cbv beta iota zeta in H;
cbn [app] in H.

Section Properties.

Variable sanitize : string -> string.
Variable dirname : string.

(** *** Facts about every run *)

Lemma no_file_at_new_dir (disk : gmap string node) (d p : string) (b : blob) :
  <[d := Dir]> disk !! p = Some (File b) -> disk !! p = Some (File b).
Proof.
  rewrite lookup_insert. case_decide; [discriminate | trivial].
Qed.

(** A response whose body is a whole file comes from a run in which every
    stage succeeded; the file is the archive of the staged workspace. *)
Lemma delivered_inv (w : world) (req : request) (disk : gmap string node) (b : blob) :
  resBody (res (snd (run sanitize dirname w req disk))) = FileStream b ->
  exists s u html icon192 icon512,
    appName req = JStr s
    /\ websiteUrl req = JStr u
    /\ snd (navigate goto_opts (web w u NetworkIdle0)) = inr html
    /\ res (snd (run sanitize dirname w req disk)) =
         {| statusCode := 200; headersSent := true;
            contentDisposition := Some (sanitize s +:+ ".zip");
            resBody := FileStream b |}
    /\ b = ZipData
             (dir_entries (workspace_path dirname (sanitize s) (uuid w))
                (staged (workspace_path dirname (sanitize s) (uuid w))
                        (archive_path dirname (sanitize s) (uuid w))
                        (sanitize s) html icon192 icon512 disk)).
Proof.
  destruct req as [a u]; cbn [appName websiteUrl].
  remember (run sanitize dirname w _ disk) as r eqn:Hr.
  exec Hr.
  all: subst r; cbn [snd res resBody]; intros Hb; try discriminate Hb.
  injection Hb as <-.
  match goal with
  | Ea : a = JStr ?name,
    E : navigate _ (web _ ?url _) = (_, inr ?html),
    E1 : _ !! path_join [dirname; "placeholder-icon-192x192.png"] = Some (File ?i1),
    E2 : _ !! path_join [dirname; "placeholder-icon-512x512.png"] = Some (File ?i2)
    |- _ =>
      exists name, url, html, i1, i2; change (waitUntil goto_opts) with NetworkIdle0 in E;
      rewrite E
  end.
  repeat split; reflexivity.
Qed.

(** The paths and options the handler hands to its collaborators. *)
Lemma trace_paths (w : world) (req : request) (disk : gmap string node) :
  (forall d, In (EnsureDir d) (trace (snd (run sanitize dirname w req disk))) ->
     exists s, appName req = JStr s
               /\ d = workspace_path dirname (sanitize s) (uuid w))
  /\ (forall d z, In (CreateZip d z) (trace (snd (run sanitize dirname w req disk))) ->
     exists s, appName req = JStr s
               /\ d = workspace_path dirname (sanitize s) (uuid w)
               /\ z = archive_path dirname (sanitize s) (uuid w))
  /\ (forall url o, In (Goto url o) (trace (snd (run sanitize dirname w req disk))) ->
     url = websiteUrl req /\ o = goto_opts).
Proof.
  destruct req as [a u]; cbn [appName websiteUrl].
  remember (run sanitize dirname w _ disk) as r eqn:Hr.
  exec Hr.
  all: subst r; cbn [snd trace In].
  all: repeat split; intros;
    repeat match goal with H : _ \/ _ |- _ => destruct H end;
    try contradiction; simplify_eq; eauto.
Qed.

Lemma navigate_bound (b : page_behaviour) : fst (navigate goto_opts b) <= 60000.
Proof.
  destruct b as [t html|t|]; cbn.
  - destruct (60000 <? t) eqn:E; cbn; [lia | apply N.ltb_ge in E; lia].
  - destruct (60000 <? t) eqn:E; cbn; [lia | apply N.ltb_ge in E; lia].
  - lia.
Qed.

(** The response is still untouched when the [try] block throws. *)
Lemma attempt_throw_res (w : world) (req : request) (disk : gmap string node)
    (e : exn) (st : state) :
  attempt sanitize dirname w req (boot disk) = (Throw e, st) ->
  res st = fresh_response /\ console st = [].
Proof.
  destruct req as [a u]. intros H. symmetry in H.
  exec H.
  all: simplify_eq; split; reflexivity.
Qed.

(** The [try] block throws before anything is removed. *)
Lemma attempt_throw_trace (w : world) (req : request) (disk : gmap string node)
    (e : exn) (st : state) :
  attempt sanitize dirname w req (boot disk) = (Throw e, st) ->
  forallb (fun ev => negb (is_remove ev)) (trace st) = true.
Proof.
  destruct req as [a u]. intros H. symmetry in H.
  exec H.
  all: simplify_eq; reflexivity.
Qed.

Lemma attempt_sending (w : world) (req : request) (disk : gmap string node)
    (p name : string) (k : option exn -> M unit) (st : state) :
  attempt sanitize dirname w req (boot disk) = (Ok (Sending p name k), st) ->
  res st = fresh_response
  /\ exists s, appName req = JStr s
    /\ p = archive_path dirname (sanitize s) (uuid w)
    /\ name = sanitize s +:+ ".zip"
    /\ k = download_done (workspace_path dirname (sanitize s) (uuid w)) p.
Proof.
  destruct req as [a u]; cbn [appName]. intros H. symmetry in H.
  exec H.
  all: simplify_eq.
  split; [reflexivity | eexists; repeat split; reflexivity].
Qed.

(** The [catch] block answers and removes nothing: what the [try] block left
    on disk stays there. *)
Lemma catch_keeps_disk (w : world) (req : request) (disk : gmap string node)
    (e : exn) (st : state) :
  attempt sanitize dirname w req (boot disk) = (Throw e, st) ->
  fs (snd (run sanitize dirname w req disk)) = fs st
  /\ forallb (fun ev => negb (is_remove ev))
       (trace (snd (run sanitize dirname w req disk))) = true.
Proof.
  intros H.
  destruct (attempt_throw_res _ _ _ _ _ H) as [Hres _].
  pose proof (attempt_throw_trace _ _ _ _ _ H) as Ht.
  unfold run, serve, generate_app, try_catch, bind. rewrite H.
  destruct st as [f r c t]; cbn [res trace] in *; subst r.
  split; [reflexivity | exact Ht].
Qed.

(** Every stage succeeding, the archive of the bundle is delivered: a
    request with both fields, no collaborator failing, a page idle within the
    timeout, a new workspace and the two placeholder icons in place. *)
Lemma run_delivers (w : world) (req : request) (disk : gmap string node)
    (s u html : string) (t : N) (icon192 icon512 : blob) :
  appName req = JStr s -> s <> EmptyString ->
  websiteUrl req = JStr u -> u <> EmptyString ->
  (forall x, fault w x = false) ->
  web w u NetworkIdle0 = Settles t html -> t <= 60000 ->
  transfer w = Delivered ->
  is_file disk (workspace_path dirname (sanitize s) (uuid w)) = false ->
  fresh_workspace disk (workspace_path dirname (sanitize s) (uuid w)) ->
  disk !! path_join [dirname; "placeholder-icon-192x192.png"] = Some (File icon192) ->
  disk !! path_join [dirname; "placeholder-icon-512x512.png"] = Some (File icon512) ->
  exists entries,
    fst (run sanitize dirname w req disk) = Ok tt
    /\ res (snd (run sanitize dirname w req disk)) =
         {| statusCode := 200; headersSent := true;
            contentDisposition := Some (sanitize s +:+ ".zip");
            resBody := FileStream (ZipData entries) |}
    /\ entries ≡ₚ bundle (sanitize s) html icon192 icon512.
Proof.
  destruct req as [a v]; cbn [appName websiteUrl].
  intros -> Hs -> Hu Hfault Hweb Ht Htr Hfile Hfresh H192 H512.
  pose proof (truthy_string _ Hs) as Ts. pose proof (truthy_string _ Hu) as Tu.
  assert (Hnav : navigate goto_opts (web w u (waitUntil goto_opts)) = (t, inr html)).
  { cbn [waitUntil goto_opts]. rewrite Hweb. cbn.
    apply N.ltb_ge in Ht. now rewrite Ht. }
  assert (Hnew : forall x,
            disk !! (workspace_path dirname (sanitize s) (uuid w) +:+ String "/" x) = None).
  { intros x. apply Hfresh, child_inside. }
  remember (run sanitize dirname w _ disk) as r eqn:Hr.
  exec Hr.
  all: try congruence.
  all: try match goal with
       | H : fault _ ?x = true |- _ => rewrite (Hfault x) in H; discriminate H
       end.
  all: try match goal with
       | H : is_dir _ _ = true |- _ =>
           rewrite !path_join2 in H;
           rewrite ?is_dir_insert_ne in H by path_ne;
           rewrite (is_dir_absent _ _ (Hnew _)) in H; discriminate H
       end.
  all: rewrite path_join2 in H192, H512.
  all: repeat match goal with
       | H : _ !! path_join [dirname; _] = _ |- _ =>
           rewrite !path_join2 in H;
           rewrite !lookup_insert_ne in H
             by first [ apply not_eq_sym, placeholder_ne_workspace
                      | apply not_eq_sym, placeholder_ne_dir ];
           rewrite ?H192, ?H512 in H
       end.
  all: simplify_eq.
  cbn [fst snd res].
  eexists. split; [reflexivity|]. split; [reflexivity|].
  rewrite archive_path_zip. now apply staged_bundle.
Qed.

(** *** The claims *)

(** C2, as amended. When the name of a request is a non-empty string that
    the sanitizer reduces to the empty token, the handler raises no error for
    it: with the other field present and [ensureDir] succeeding, the first
    thing it does is to create the workspace named "-" followed by the unique
    id, and it goes on to launch the browser. *)
Theorem empty_token_allocates
    (w : world) (req : request) (disk : gmap string node) (s : string) :
  appName req = JStr s ->
  s <> EmptyString ->
  sanitize s = EmptyString ->
  truthy (websiteUrl req) = true ->
  fault w AtEnsureDir = false ->
  is_file disk (path_join [dirname; "generated-apps"; "-" +:+ uuid w]) = false ->
  exists rest,
    trace (snd (run sanitize dirname w req disk)) =
      EnsureDir (path_join [dirname; "generated-apps"; "-" +:+ uuid w])
      :: Launch launch_args :: rest.
Proof.
  destruct req as [a u]; cbn [appName websiteUrl].
  intros -> Hs Hsan Hu Hf Hfile.
  assert (Ht : truthy (JStr s) = true).
  { cbn. destruct s; [congruence | reflexivity]. }
  remember (run sanitize dirname w _ disk) as r eqn:Hr.
  exec Hr.
  all: subst r; cbn [snd trace].
  all: try congruence.
  all: unfold workspace_path in *; rewrite ?Hsan, ?append_nil_l in *; try congruence.
  all: eexists; reflexivity.
Qed.

(** C3, as amended. When the [try] block of the handler throws (the name is
    no string, or the workspace, the capture, the synthesis or the archive
    fails), the response is status 500 with the body
    [{ error: 'Internal server error' }]. When the [try] block hands the
    archive over and the transfer fails before the headers are sent, the
    response is status 500 with the body [{ error: 'Error sending file' }]. *)
Theorem downstream_failure_response
    (w : world) (req : request) (disk : gmap string node) :
  (forall e st,
     attempt sanitize dirname w req (boot disk) = (Throw e, st) ->
     res (snd (run sanitize dirname w req disk)) =
       {| statusCode := 500; headersSent := true; contentDisposition := None;
          resBody := JsonError "Internal server error" |})
  /\ (forall p name k st,
     attempt sanitize dirname w req (boot disk) = (Ok (Sending p name k), st) ->
     transfer w = FailsBeforeHeaders ->
     res (snd (run sanitize dirname w req disk)) =
       {| statusCode := 500; headersSent := true; contentDisposition := None;
          resBody := JsonError "Error sending file" |}).
Proof.
  split.
  - intros e st H. destruct (attempt_throw_res _ _ _ _ _ H) as [Hres _].
    unfold run, serve, generate_app, try_catch, bind. rewrite H.
    destruct st as [f r c t]; cbn [res] in Hres; subst r. reflexivity.
  - intros p name k st H Ht.
    destruct (attempt_sending _ _ _ _ _ _ _ H) as [Hres (s & _ & _ & _ & ->)].
    unfold run, serve, generate_app, try_catch, bind. rewrite H.
    destruct st as [f r c t]; cbn [res] in Hres; subst r.
    unfold send_file, bind, get. cbn [fs]. rewrite Ht.
    destruct (f !! p) as [[|b]|]; reflexivity.
Qed.

(** C4. When [appName] or [websiteUrl] is missing from the request (absent,
    empty, or falsy in any other way), the response is status 400 with the
    body [{ error: 'Missing required fields' }]; the disk is as it was and no
    collaborator was called, so no workspace was created. *)
Theorem missing_field_rejected (w : world) (req : request) (disk : gmap string node) :
  truthy (appName req) = false \/ truthy (websiteUrl req) = false ->
  run sanitize dirname w req disk =
    (Ok tt,
     {| fs := disk;
        res := {| statusCode := 400; headersSent := true;
                  contentDisposition := None;
                  resBody := JsonError "Missing required fields" |};
        console := [];
        trace := [] |}).
Proof.
  intros H.
  unfold run, serve, generate_app, try_catch, bind, attempt.
  assert (E : negb (truthy (appName req)) || negb (truthy (websiteUrl req)) = true).
  { destruct H as [-> | ->]; [reflexivity | apply orb_true_r]. }
  rewrite E. reflexivity.
Qed.

(** C5. When the capture fails (navigation times out, the page is
    unreachable, or the URL is no string), no step of the synthesis and no
    archiving is reached, and every file on disk at the end was there, with
    the same contents, before the request. *)
Theorem capture_failure_writes_nothing
    (w : world) (req : request) (disk : gmap string node) :
  capture_fails w (websiteUrl req) = true ->
  forallb (fun e => negb (writes e)) (trace (snd (run sanitize dirname w req disk))) = true
  /\ forall p b,
       fs (snd (run sanitize dirname w req disk)) !! p = Some (File b) ->
       disk !! p = Some (File b).
Proof.
  destruct req as [a u]; cbn [websiteUrl]; intros Hc.
  remember (run sanitize dirname w _ disk) as r eqn:Hr.
  exec Hr.
  all: subst r; cbn [snd trace fs].
  all: try (split; [reflexivity | tauto]).
  all: try (split; [reflexivity | intros p b'; apply no_file_at_new_dir]).
  all: exfalso; unfold capture_fails in Hc;
    match goal with E : navigate _ _ = _ |- _ => rewrite E in Hc end;
    discriminate Hc.
Qed.

(** C6. When a request succeeds (the archive is streamed to its end) and its
    workspace was new, the archive holds exactly seven files: index.html,
    manifest.json, sw.js, app.js, styles.css and the two icons. *)
Theorem archive_has_seven_files
    (w : world) (req : request) (disk : gmap string node) (s : string) (b : blob) :
  appName req = JStr s ->
  fresh_workspace disk (workspace_path dirname (sanitize s) (uuid w)) ->
  resBody (res (snd (run sanitize dirname w req disk))) = FileStream b ->
  exists entries, b = ZipData entries /\ entries.*1 ≡ₚ bundle_names.
Proof.
  intros Hs Hfresh H.
  destruct (delivered_inv _ _ _ _ H) as (s' & u & html & i1 & i2 & Ha & _ & _ & _ & Hb).
  assert (s' = s) as -> by congruence.
  eexists; split; [exact Hb|].
  rewrite archive_path_zip.
  rewrite (staged_bundle _ _ _ _ _ _ Hfresh).
  reflexivity.
Qed.


(** C8. When a request succeeds, the archive holds one index.html, and that
    document holds the captured markup unchanged inside the app-content
    container, with the links to the manifest and to the stylesheet before
    the container and the script tag of the bootstrap script after it. *)
Theorem markup_embeds_capture
    (w : world) (req : request) (disk : gmap string node) (b : blob) :
  resBody (res (snd (run sanitize dirname w req disk))) = FileStream b ->
  exists s u t html entries,
    appName req = JStr s
    /\ websiteUrl req = JStr u
    /\ web w u NetworkIdle0 = Settles t html
    /\ b = ZipData entries
    /\ ("index.html", Bytes (indexHtml (sanitize s) html)) ∈ entries
    /\ (forall c, ("index.html", c) ∈ entries -> c = Bytes (indexHtml (sanitize s) html))
    /\ embeds (indexHtml (sanitize s) html) html.
Proof.
  intros H.
  destruct (delivered_inv _ _ _ _ H)
    as (s & u & html & i1 & i2 & Ha & Hu & Hn & _ & Hb).
  destruct (navigate_captures _ _ _ Hn) as (t & Hw & _).
  exists s, u, t, html. eexists. repeat split; try eassumption.
  - apply elem_of_dir_entries. rewrite archive_path_zip. apply staged_index.
  - intros c Hc. apply elem_of_dir_entries in Hc.
    rewrite archive_path_zip, staged_index in Hc. now injection Hc as <-.
  - apply indexHtml_embeds.
Qed.

(** C9. When a request succeeds, the response is status 200, its body is the
    archive of the workspace, and the file name of its Content-Disposition is
    the sanitized name followed by ".zip". *)
Theorem success_response
    (w : world) (req : request) (disk : gmap string node) (b : blob) :
  resBody (res (snd (run sanitize dirname w req disk))) = FileStream b ->
  statusCode (res (snd (run sanitize dirname w req disk))) = 200
  /\ (exists s,
        appName req = JStr s
        /\ contentDisposition (res (snd (run sanitize dirname w req disk)))
           = Some (sanitize s +:+ ".zip")
        /\ exists html icon192 icon512,
             b = ZipData
                   (dir_entries (workspace_path dirname (sanitize s) (uuid w))
                      (staged (workspace_path dirname (sanitize s) (uuid w))
                              (archive_path dirname (sanitize s) (uuid w))
                              (sanitize s) html icon192 icon512 disk))).
Proof.
  intros H.
  destruct (delivered_inv _ _ _ _ H) as (s & u & html & i1 & i2 & Ha & _ & _ & Hr & Hb).
  rewrite Hr. cbn [statusCode contentDisposition].
  split; [reflexivity|]. exists s. split; [exact Ha|]. split; [reflexivity|].
  exists html, i1, i2. exact Hb.
Qed.

(** C10. Every navigation the handler starts is for the URL of the request,
    waits for network idle and has the timeout of 60000 ms, whatever the
    request; with these options no navigation waits longer than 60000 ms. *)
Theorem capture_timeout_fixed
    (w : world) (req : request) (disk : gmap string node) (url : js_value)
    (o : goto_options) :
  In (Goto url o) (trace (snd (run sanitize dirname w req disk))) ->
  url = websiteUrl req
  /\ waitUntil o = NetworkIdle0
  /\ timeout o = 60000
  /\ forall b, fst (navigate o b) <= 60000.
Proof.
  intros H.
  destruct (trace_paths w req disk) as (_ & _ & G).
  destruct (G _ _ H) as [-> ->].
  repeat split. apply navigate_bound.
Qed.

End Properties.

(** ** The claims on sample requests *)

Lemma sample_workspace_path :
  workspace_path "/srv/app" (sanitize_filename "My App") sample_uuid = sample_workspace.
Proof. reflexivity. Qed.

Lemma sample_disk_fresh : fresh_workspace sample_disk sample_workspace.
Proof.
  intros p Hin. unfold sample_disk.
  rewrite !lookup_insert_ne; [apply lookup_empty | ..];
    intros <-; apply Hin; reflexivity.
Defined.

Lemma sample_delivered :
  exists b,
    resBody (res (snd (run sanitize_filename "/srv/app" calm sample_request sample_disk)))
    = FileStream b.
Proof. eexists. vm_compute. reflexivity. Defined.

(** C1. A request whose capture fails is answered with status 500 and
    nothing is removed: the workspace directory is still on disk. The same
    holds when the archiver fails, and then the file the write stream opened
    is left behind as well. *)
Theorem failed_request_leaves_workspace :
  (let st := snd (run sanitize_filename "/srv/app" offline sample_request sample_disk) in
   statusCode (res st) = 500
   /\ fs st !! sample_workspace = Some Dir
   /\ forallb (fun e => negb (is_remove e)) (trace st) = true)
  /\ (let st := snd (run sanitize_filename "/srv/app" jammed sample_request sample_disk) in
      statusCode (res st) = 500
      /\ fs st !! sample_workspace = Some Dir
      /\ is_file (fs st) (path_join [sample_workspace; "index.html"]) = true
      /\ fs st !! (sample_workspace +:+ ".zip") = Some (File (Bytes EmptyString))
      /\ forallb (fun e => negb (is_remove e)) (trace st) = true).
Proof. vm_compute. repeat split; reflexivity. Qed.

(** When the client goes away during the transfer, the callback throws while
    answering and the two removals after it are not reached. *)
Example aborted_transfer_skips_cleanup :
  let r := run sanitize_filename "/srv/app" hasty sample_request sample_disk in
  fst r = Throw HeadersAlreadySent
  /\ resBody (res (snd r)) = PartialStream
  /\ statusCode (res (snd r)) = 200
  /\ fs (snd r) !! sample_workspace = Some Dir
  /\ forallb (fun e => negb (is_remove e)) (trace (snd r)) = true.
Proof. vm_compute. repeat split; reflexivity. Qed.

(** After a delivered archive both removals have run. *)
Example delivered_request_cleans_up :
  let st := snd (run sanitize_filename "/srv/app" calm sample_request sample_disk) in
  fs st = sample_disk
  /\ existsb is_remove (trace st) = true.
Proof. vm_compute. split; reflexivity. Qed.

(** C2 fails as stated: the name "/" is sanitized to the empty token, and the
    request is served with status 200 from the workspace named "-" followed
    by the unique id; nothing is logged. *)
Lemma empty_token_not_rejected :
  sanitize_filename "/" = EmptyString
  /\ let r := run sanitize_filename "/srv/app" calm slash_request sample_disk in
     fst r = Ok tt
     /\ head (trace (snd r)) =
          Some (EnsureDir "/srv/app/generated-apps/-110ec58a-a0f2-4ac4-8393-c866d813b8d1")
     /\ statusCode (res (snd r)) = 200
     /\ contentDisposition (res (snd r)) = Some ".zip"
     /\ console (snd r) = [].
Proof. vm_compute. repeat split; reflexivity. Qed.

Lemma empty_token_allocates_witness :
  sanitize_filename "/" = EmptyString
  /\ exists rest,
       trace (snd (run sanitize_filename "/srv/app" calm slash_request sample_disk)) =
         EnsureDir (path_join ["/srv/app"; "generated-apps"; "-" +:+ uuid calm])
         :: Launch launch_args :: rest.
Proof.
  split; [reflexivity|].
  apply (empty_token_allocates sanitize_filename "/srv/app" calm slash_request
           sample_disk "/");
    [reflexivity | discriminate | reflexivity | reflexivity | reflexivity
    | vm_compute; reflexivity].
Defined.

(** C3 fails as stated: when the archive cannot be sent, the body of the 500
    response is [{ error: 'Error sending file' }]. *)
Lemma send_failure_body :
  let st := snd (run sanitize_filename "/srv/app" unsendable sample_request sample_disk) in
  statusCode (res st) = 500
  /\ resBody (res st) = JsonError "Error sending file"
  /\ resBody (res st) <> JsonError "Internal server error".
Proof. vm_compute. repeat split. discriminate. Qed.

Lemma downstream_failure_response_witness :
  res (snd (run sanitize_filename "/srv/app" offline sample_request sample_disk)) =
    {| statusCode := 500; headersSent := true; contentDisposition := None;
       resBody := JsonError "Internal server error" |}
  /\ res (snd (run sanitize_filename "/srv/app" unsendable sample_request sample_disk)) =
    {| statusCode := 500; headersSent := true; contentDisposition := None;
       resBody := JsonError "Error sending file" |}.
Proof.
  split.
  - destruct (downstream_failure_response sanitize_filename "/srv/app" offline
                sample_request sample_disk) as [H _].
    eapply H. vm_compute. reflexivity.
  - destruct (downstream_failure_response sanitize_filename "/srv/app" unsendable
                sample_request sample_disk) as [_ H].
    eapply H; [vm_compute; reflexivity | reflexivity].
Defined.

Lemma missing_field_rejected_witness :
  truthy (appName nameless_request) = false
  /\ run sanitize_filename "/srv/app" calm nameless_request sample_disk =
       (Ok tt,
        {| fs := sample_disk;
           res := {| statusCode := 400; headersSent := true;
                     contentDisposition := None;
                     resBody := JsonError "Missing required fields" |};
           console := [];
           trace := [] |}).
Proof.
  split; [reflexivity|].
  apply (missing_field_rejected sanitize_filename "/srv/app" calm nameless_request
           sample_disk).
  left. reflexivity.
Defined.

Lemma capture_failure_writes_nothing_witness :
  capture_fails offline (websiteUrl sample_request) = true
  /\ capture_fails busy (websiteUrl sample_request) = true
  /\ forallb (fun e => negb (writes e))
       (trace (snd (run sanitize_filename "/srv/app" busy sample_request sample_disk)))
     = true
  /\ forall p b,
       fs (snd (run sanitize_filename "/srv/app" offline sample_request sample_disk)) !! p
       = Some (File b) ->
       sample_disk !! p = Some (File b).
Proof.
  split; [reflexivity|]. split; [reflexivity|]. split.
  - apply (capture_failure_writes_nothing sanitize_filename "/srv/app" busy
             sample_request sample_disk). reflexivity.
  - apply (capture_failure_writes_nothing sanitize_filename "/srv/app" offline
             sample_request sample_disk). reflexivity.
Defined.

Lemma archive_has_seven_files_witness :
  exists entries,
    resBody (res (snd (run sanitize_filename "/srv/app" calm sample_request sample_disk)))
    = FileStream (ZipData entries)
    /\ entries.*1 ≡ₚ bundle_names.
Proof.
  destruct sample_delivered as [b Hb].
  destruct (archive_has_seven_files sanitize_filename "/srv/app" calm sample_request
              sample_disk "My App" b eq_refl sample_disk_fresh Hb)
    as (entries & -> & Hp).
  exists entries. split; [exact Hb | exact Hp].
Defined.


Lemma markup_embeds_capture_witness :
  exists b,
    resBody (res (snd (run sanitize_filename "/srv/app" calm sample_request sample_disk)))
    = FileStream b
    /\ exists s u t html entries,
         appName sample_request = JStr s
         /\ websiteUrl sample_request = JStr u
         /\ web calm u NetworkIdle0 = Settles t html
         /\ b = ZipData entries
         /\ ("index.html", Bytes (indexHtml (sanitize_filename s) html)) ∈ entries
         /\ (forall c, ("index.html", c) ∈ entries ->
               c = Bytes (indexHtml (sanitize_filename s) html))
         /\ embeds (indexHtml (sanitize_filename s) html) html.
Proof.
  destruct sample_delivered as [b Hb].
  exists b. split; [exact Hb|].
  exact (markup_embeds_capture sanitize_filename "/srv/app" calm sample_request
           sample_disk b Hb).
Defined.

Lemma success_response_witness :
  exists b,
    resBody (res (snd (run sanitize_filename "/srv/app" calm sample_request sample_disk)))
    = FileStream b
    /\ statusCode
         (res (snd (run sanitize_filename "/srv/app" calm sample_request sample_disk)))
       = 200
    /\ (exists s,
          appName sample_request = JStr s
          /\ contentDisposition
               (res (snd (run sanitize_filename "/srv/app" calm sample_request
                            sample_disk)))
             = Some (sanitize_filename s +:+ ".zip")
          /\ exists html icon192 icon512,
               b = ZipData
                     (dir_entries
                        (workspace_path "/srv/app" (sanitize_filename s) (uuid calm))
                        (staged
                           (workspace_path "/srv/app" (sanitize_filename s) (uuid calm))
                           (archive_path "/srv/app" (sanitize_filename s) (uuid calm))
                           (sanitize_filename s) html icon192 icon512 sample_disk))).
Proof.
  destruct sample_delivered as [b Hb].
  exists b. split; [exact Hb|].
  exact (success_response sanitize_filename "/srv/app" calm sample_request
           sample_disk b Hb).
Defined.

Lemma capture_timeout_fixed_witness :
  In (Goto (JStr "https://example.com") goto_opts)
     (trace (snd (run sanitize_filename "/srv/app" busy sample_request sample_disk)))
  /\ forall b, fst (navigate goto_opts b) <= 60000.
Proof.
  assert (H : In (Goto (JStr "https://example.com") goto_opts)
                (trace (snd (run sanitize_filename "/srv/app" busy sample_request
                               sample_disk)))).
  { vm_compute. do 3 right. left. reflexivity. }
  split; [exact H|].
  apply (capture_timeout_fixed sanitize_filename "/srv/app" busy sample_request
           sample_disk _ _ H).
Defined.

(** * More of the service *)

Section Cleanup.
Implicit Types (m disk : gmap string node) (p k d : string).


Lemma remove_spec p (s : state) :
  remove p s =
    (Ok tt,
     {| fs := without p (fs s); res := res s; console := console s;
        trace := trace s ++ [Remove p] |}).
Proof. reflexivity. Qed.

End Cleanup.

Lemma zip_ne_self (d : string) : d +:+ ".zip" <> d.
Proof.
  intros E. apply (f_equal String.length) in E.
  rewrite length_append in E. cbn [String.length] in E. lia.
Qed.

(** As [path_ne], with the archive beside the workspace. *)
Ltac path_ne' :=
  first
    [ path_ne
    | apply zip_ne_self
    | apply not_eq_sym; apply zip_ne_self ].

Section MoreProperties.
Variable sanitize : string -> string.
Variable dirname : string.

(** X1. The calls a request makes to its collaborators are an initial part of
    the fixed sequence of stages: no stage is skipped, repeated or run out of
    order, and nothing is called for a name that is no string. *)
Theorem calls_follow_stages (w : world) (req : request) (disk : gmap string node) :
  (forall s, appName req = JStr s ->
     trace (snd (run sanitize dirname w req disk))
       `prefix_of` stages dirname (sanitize s) (uuid w) (websiteUrl req))
  /\ ((forall s, appName req <> JStr s) ->
      trace (snd (run sanitize dirname w req disk)) = []).
Proof.
  destruct req as [a u]; cbn [appName websiteUrl].
  remember (run sanitize dirname w _ disk) as r eqn:Hr.
  exec Hr.
  all: subst r; cbn [snd trace]; split.
  all: try (intros; reflexivity).
  all: try (intros H; exfalso; eapply H; reflexivity).
  all: intros ? ?; simplify_eq.
  all: try apply prefix_nil.
  all: unfold stages; eexists; cbn [app]; reflexivity.
Qed.

(** X2. When the capture fails, [browser.close] is never called: the browser
    launched for the request is left running. *)
Theorem failed_capture_keeps_browser_open
    (w : world) (req : request) (disk : gmap string node) :
  capture_fails w (websiteUrl req) = true ->
  ~ In CloseBrowser (trace (snd (run sanitize dirname w req disk))).
Proof.
  destruct req as [a u]; cbn [websiteUrl]; intros Hc.
  remember (run sanitize dirname w _ disk) as r eqn:Hr.
  exec Hr.
  all: subst r; cbn [snd trace In].
  all: try (intros H; repeat destruct H as [H|H]; solve [discriminate H | contradiction]).
  all: exfalso; unfold capture_fails in Hc;
    match goal with E : navigate _ _ = _ |- _ => rewrite E in Hc end;
    discriminate Hc.
Qed.


(** X4. When the transfer is cut after the headers, answering from the
    callback throws, and the removals that follow it are not reached: the
    response stays the cut 200, and workspace and archive stay on disk. *)
Theorem aborted_transfer_skips_removal
    (w : world) (req : request) (disk : gmap string node) (p name : string) :
  transfer w = AbortedMidStream ->
  In (SendFile p name) (trace (snd (run sanitize dirname w req disk))) ->
  fst (run sanitize dirname w req disk) = Throw HeadersAlreadySent
  /\ statusCode (res (snd (run sanitize dirname w req disk))) = 200
  /\ resBody (res (snd (run sanitize dirname w req disk))) = PartialStream
  /\ console (snd (run sanitize dirname w req disk))
     = [ConsoleError "Error sending file:" RequestAborted]
  /\ forallb (fun e => negb (is_remove e))
       (trace (snd (run sanitize dirname w req disk))) = true
  /\ exists s, appName req = JStr s
       /\ fs (snd (run sanitize dirname w req disk))
            !! workspace_path dirname (sanitize s) (uuid w) = Some Dir
       /\ is_file (fs (snd (run sanitize dirname w req disk)))
            (archive_path dirname (sanitize s) (uuid w)) = true.
Proof.
  destruct req as [a u]; cbn [appName]. intros Ht.
  remember (run sanitize dirname w _ disk) as r eqn:Hr.
  exec Hr.
  all: subst r; cbn [fst snd trace res resBody statusCode console fs In]; intros H.
  all: try (repeat destruct H as [H|H]; solve [discriminate H | contradiction]).
  all: try congruence.
  do 5 (split; [reflexivity|]).
  match goal with |- exists _, JStr ?x = _ /\ _ => exists x end.
  split; [reflexivity|]. split.
  - rewrite archive_path_zip, !path_join2.
    rewrite !lookup_insert_ne by path_ne'. apply lookup_insert_eq.
  - unfold is_file. now rewrite lookup_insert_eq.
Qed.

(** X5. A name that is truthy but no string (a number, an object) is not a
    client error: the sanitizer throws on it and the request is answered
    with status 500, before any collaborator is called or the disk touched. *)
Theorem non_string_name_is_server_error
    (w : world) (req : request) (disk : gmap string node) :
  truthy (appName req) = true ->
  truthy (websiteUrl req) = true ->
  (forall s, appName req <> JStr s) ->
  run sanitize dirname w req disk =
    (Ok tt,
     {| fs := disk;
        res := {| statusCode := 500; headersSent := true; contentDisposition := None;
                  resBody := JsonError "Internal server error" |};
        console := [ConsoleError "Error generating app:" InputMustBeString];
        trace := [] |}).
Proof.
  destruct req as [a u]; cbn [appName websiteUrl]. intros Ha Hu Hn.
  unfold run, serve, generate_app, try_catch, bind, attempt; cbn [appName websiteUrl].
  rewrite Ha, Hu. cbn [negb orb].
  destruct a; try reflexivity. exfalso. now apply (Hn s).
Qed.

(** X6. All the [catch] block does: it logs the exception once and answers
    500; disk and calls are as the [try] block left them. *)
Theorem catch_block_effect
    (w : world) (req : request) (disk : gmap string node) (e : exn) (st : state) :
  attempt sanitize dirname w req (boot disk) = (Throw e, st) ->
  run sanitize dirname w req disk =
    (Ok tt,
     {| fs := fs st;
        res := {| statusCode := 500; headersSent := true; contentDisposition := None;
                  resBody := JsonError "Internal server error" |};
        console := [ConsoleError "Error generating app:" e];
        trace := trace st |}).
Proof.
  intros H. destruct (attempt_throw_res _ _ _ _ _ _ _ H) as [Hres Hcon].
  unfold run, serve, generate_app, try_catch, bind. rewrite H.
  destruct st as [f r c t]; cbn [res console] in *; subst r c. reflexivity.
Qed.


(** X8. The archive is created beside the workspace, under the name of the
    workspace followed by ".zip", never inside it. *)
Theorem archive_beside_workspace
    (w : world) (req : request) (disk : gmap string node) (d z : string) :
  In (CreateZip d z) (trace (snd (run sanitize dirname w req disk))) ->
  z = d +:+ ".zip" /\ ~ inside d z /\ z <> d.
Proof.
  intros H.
  destruct (trace_paths sanitize dirname w req disk) as (_ & Z & _).
  destruct (Z _ _ H) as (s & _ & -> & ->).
  rewrite archive_path_zip. split; [reflexivity|]. split; [apply zip_outside|].
  apply zip_ne_self.
Qed.
End MoreProperties.

Section Standalone.
Implicit Types (m : gmap string node) (d : string).



End Standalone.

Section Synthesis.
Variable dirname : string.




End Synthesis.

Section References.





End References.

Section Form.

(** X15. However the request ends, [handleSubmit] returns with the default
    action prevented, the loading flag down, the fields and the document as
    they were, one request posted to the endpoint with the two fields, and
    one toast shown. *)
Theorem handleSubmit_settles (net : string -> request -> option response)
    (env : option string) (s : App.ui) :
  let r := App.handleSubmit net env s in
  fst r = inr tt
  /\ App.isLoading (snd r) = false
  /\ App.prevented (snd r) = true
  /\ App.appName (snd r) = App.appName s
  /\ App.websiteUrl (snd r) = App.websiteUrl s
  /\ App.children (snd r) = App.children s
  /\ App.posts (snd r) =
       App.posts s ++ [(App.API_URL env +:+ "/generate-app",
                        post_body (App.appName s) (App.websiteUrl s))]
  /\ length (App.toasts (snd r)) = S (length (App.toasts s)).
Proof.
  destruct s as [a u l p c ps sv ts es].
  unfold App.handleSubmit, App.try_finally, App.try_catch, App.bind, App.axios_post,
    App.read, App.preventDefault, App.setIsLoading, App.appendChild, App.click,
    App.remove_link, App.show, App.console_error, App.update.
  cbn [App.appName App.websiteUrl App.isLoading App.prevented App.children App.posts
       App.saved App.toasts App.errors].
  destruct (net _ _) as [r|]; [destruct (_ && _)|]; cbn;
    rewrite ?removelast_last, ?length_app; cbn; repeat split; lia.
Qed.
End Form.

Section FormOutcome.

Ltac unfold_form :=
  unfold App.handleSubmit, App.try_finally, App.try_catch, App.bind, App.axios_post,
    App.read, App.preventDefault, App.setIsLoading, App.appendChild, App.click,
    App.remove_link, App.show, App.console_error, App.update;
  cbn [App.appName App.websiteUrl App.isLoading App.prevented App.children App.posts
       App.saved App.toasts App.errors].

(** The result of [handleSubmit], by what [axios.post] settles with. *)
Lemma handleSubmit_cases (net : string -> request -> option response)
    (env : option string) (s : App.ui) :
  let r := App.handleSubmit net env s in
  match net (App.API_URL env +:+ "/generate-app")
            (post_body (App.appName s) (App.websiteUrl s)) with
  | Some rsp =>
      if (200 <=? statusCode rsp) && (statusCode rsp <? 300) then
        App.saved (snd r) = App.saved s ++ [(App.appName s +:+ ".zip", resBody rsp)]
        /\ App.toasts (snd r) =
             App.toasts s ++ [App.ToastSuccess "Web app generated successfully!"]
        /\ App.errors (snd r) = App.errors s
        /\ App.isLoading (snd r) = false
      else
        App.saved (snd r) = App.saved s
        /\ App.toasts (snd r) =
             App.toasts s ++
             [App.ToastError "An error occurred while generating the app. Please try again."]
        /\ App.errors (snd r) = App.errors s ++ [App.BadStatus (statusCode rsp)]
        /\ App.isLoading (snd r) = false
  | None =>
      App.saved (snd r) = App.saved s
      /\ App.toasts (snd r) =
           App.toasts s ++
           [App.ToastError "An error occurred while generating the app. Please try again."]
      /\ App.errors (snd r) = App.errors s ++ [App.NetworkError]
      /\ App.isLoading (snd r) = false
  end.
Proof.
  destruct s as [a u l p c ps sv ts es].
  unfold_form.
  destruct (net _ _) as [r|]; [destruct (_ && _)|]; cbn; repeat split.
Qed.

Variable sanitize : string -> string.
Variable dirname : string.


Lemma error_object_status (w : world) (req : request) (disk : gmap string node)
    (msg : string) :
  resBody (res (snd (run sanitize dirname w req disk))) = JsonError msg ->
  statusCode (res (snd (run sanitize dirname w req disk))) = 400
  \/ statusCode (res (snd (run sanitize dirname w req disk))) = 500.
Proof.
  destruct req as [a u].
  remember (run sanitize dirname w _ disk) as r eqn:Hr.
  exec Hr.
  all: subst r; cbn [snd res statusCode resBody]; intros H; try discriminate H.
  all: first [left; reflexivity | right; reflexivity].
Qed.


(** X17. The form in front of the service, for a request the service answers
    with an error object: nothing is saved, the error toast is shown and the
    rejection, with status 400 or 500, is logged. *)
Theorem form_reports_refusal
    (w : world) (disk : gmap string node) (env : option string)
    (name url msg : string) :
  resBody (res (snd (run sanitize dirname w (post_body name url) disk))) = JsonError msg ->
  let r := App.handleSubmit (backend sanitize dirname w disk) env (App.typed name url) in
  App.saved (snd r) = []
  /\ App.toasts (snd r) =
       [App.ToastError "An error occurred while generating the app. Please try again."]
  /\ (App.errors (snd r) = [App.BadStatus 400] \/ App.errors (snd r) = [App.BadStatus 500])
  /\ App.isLoading (snd r) = false.
Proof.
  intros H r.
  pose proof (handleSubmit_cases (backend sanitize dirname w disk) env
                (App.typed name url)) as Ho.
  cbv zeta in Ho. fold r in Ho. clearbody r.
  unfold backend in Ho. cbn [App.typed App.appName App.websiteUrl App.saved
    App.toasts App.errors] in Ho.
  destruct (error_object_status w (post_body name url) disk msg H) as [Hst | Hst];
    rewrite Hst in Ho; cbn in Ho;
    destruct Ho as (-> & -> & -> & ->); repeat split; [left | right]; reflexivity.
Qed.
End FormOutcome.

Section Answers.
Variable sanitize : string -> string.
Variable dirname : string.

(** X14. The status is 400 exactly when one of the two fields is falsy: no
    other failure is reported as a client error. *)
Theorem bad_request_iff_missing_field
    (w : world) (req : request) (disk : gmap string node) :
  statusCode (res (snd (run sanitize dirname w req disk))) = 400
  <-> truthy (appName req) = false \/ truthy (websiteUrl req) = false.
Proof.
  split.
  - destruct req as [a u]; cbn [appName websiteUrl].
    remember (run sanitize dirname w _ disk) as r eqn:Hr.
    exec Hr.
    all: subst r; cbn [snd res statusCode]; intros H; try discriminate H.
    all: first [left; congruence | right; congruence | left; reflexivity | right; reflexivity].
  - intros H.
    unfold run, serve, generate_app, try_catch, bind, attempt.
    assert (E : negb (truthy (appName req)) || negb (truthy (websiteUrl req)) = true).
    { destruct H as [-> | ->]; [reflexivity | apply orb_true_r]. }
    rewrite E. reflexivity.
Qed.
End Answers.

(** ** The further properties on sample requests *)


Lemma calls_follow_stages_witness :
  trace (snd (run sanitize_filename "/srv/app" jammed sample_request sample_disk))
    `prefix_of` stages "/srv/app" (sanitize_filename "My App") (uuid jammed)
                  (websiteUrl sample_request).
Proof.
  apply (calls_follow_stages sanitize_filename "/srv/app" jammed sample_request
           sample_disk).
  reflexivity.
Defined.

Lemma failed_capture_keeps_browser_open_witness :
  capture_fails offline (websiteUrl sample_request) = true
  /\ In (Launch launch_args)
       (trace (snd (run sanitize_filename "/srv/app" offline sample_request sample_disk)))
  /\ ~ In CloseBrowser
       (trace (snd (run sanitize_filename "/srv/app" offline sample_request sample_disk))).
Proof.
  split; [reflexivity|]. split; [vm_compute; right; left; reflexivity|].
  apply (failed_capture_keeps_browser_open sanitize_filename "/srv/app" offline
           sample_request sample_disk).
  reflexivity.
Defined.


Lemma aborted_transfer_skips_removal_witness :
  transfer hasty = AbortedMidStream
  /\ fst (run sanitize_filename "/srv/app" hasty sample_request sample_disk)
     = Throw HeadersAlreadySent
  /\ forallb (fun e => negb (is_remove e))
       (trace (snd (run sanitize_filename "/srv/app" hasty sample_request sample_disk)))
     = true.
Proof.
  split; [reflexivity|].
  assert (H : In (SendFile (sample_workspace +:+ ".zip") "My App.zip")
                (trace (snd (run sanitize_filename "/srv/app" hasty sample_request
                               sample_disk)))).
  { vm_compute. do 14 right. left. reflexivity. }
  destruct (aborted_transfer_skips_removal sanitize_filename "/srv/app" hasty
              sample_request sample_disk _ _ eq_refl H) as (H1 & _ & _ & _ & H5 & _).
  split; [exact H1 | exact H5].
Defined.

Lemma non_string_name_is_server_error_witness :
  truthy (appName numeric_request) = true
  /\ run sanitize_filename "/srv/app" calm numeric_request sample_disk =
       (Ok tt,
        {| fs := sample_disk;
           res := {| statusCode := 500; headersSent := true; contentDisposition := None;
                     resBody := JsonError "Internal server error" |};
           console := [ConsoleError "Error generating app:" InputMustBeString];
           trace := [] |}).
Proof.
  split; [reflexivity|].
  apply (non_string_name_is_server_error sanitize_filename "/srv/app" calm
           numeric_request sample_disk); [reflexivity | reflexivity | discriminate].
Defined.

Lemma catch_block_effect_witness :
  exists st,
    attempt sanitize_filename "/srv/app" busy sample_request (boot sample_disk)
    = (Throw TimeoutError, st)
    /\ console (snd (run sanitize_filename "/srv/app" busy sample_request sample_disk))
       = [ConsoleError "Error generating app:" TimeoutError]
    /\ fs (snd (run sanitize_filename "/srv/app" busy sample_request sample_disk)) = fs st.
Proof.
  eexists. split; [vm_compute; reflexivity|].
  rewrite (catch_block_effect sanitize_filename "/srv/app" busy sample_request
             sample_disk TimeoutError _ ltac:(vm_compute; reflexivity)).
  split; reflexivity.
Defined.


Lemma archive_beside_workspace_witness :
  In (CreateZip sample_workspace (sample_workspace +:+ ".zip"))
     (trace (snd (run sanitize_filename "/srv/app" calm sample_request sample_disk)))
  /\ ~ inside sample_workspace (sample_workspace +:+ ".zip").
Proof.
  assert (H : In (CreateZip sample_workspace (sample_workspace +:+ ".zip"))
                (trace (snd (run sanitize_filename "/srv/app" calm sample_request
                               sample_disk)))).
  { vm_compute. do 13 right. left. reflexivity. }
  split; [exact H|].
  apply (archive_beside_workspace sanitize_filename "/srv/app" calm sample_request
           sample_disk _ _ H).
Defined.






Lemma bad_request_iff_missing_field_witness :
  statusCode (res (snd (run sanitize_filename "/srv/app" calm nameless_request sample_disk)))
  = 400
  /\ statusCode (res (snd (run sanitize_filename "/srv/app" offline sample_request
                             sample_disk))) <> 400.
Proof.
  split.
  - apply (bad_request_iff_missing_field sanitize_filename "/srv/app" calm
             nameless_request sample_disk). left. reflexivity.
  - intros H.
    apply (bad_request_iff_missing_field sanitize_filename "/srv/app" offline
             sample_request sample_disk) in H.
    destruct H as [H | H]; discriminate H.
Defined.


(** A name typed with a separator: the service suggests the sanitized name,
    the form saves under the name as typed. *)
Example form_and_service_disagree_on_name :
  let reply := res (snd (run sanitize_filename "/srv/app" calm
                           (post_body "a/b" "https://example.com") sample_disk)) in
  contentDisposition reply = Some "ab.zip"
  /\ (App.saved
       (snd (App.handleSubmit (backend sanitize_filename "/srv/app" calm sample_disk) None
               (App.typed "a/b" "https://example.com")))).*1
     = ["a/b.zip"].
Proof. vm_compute. split; reflexivity. Qed.

Lemma form_reports_refusal_witness :
  App.saved
    (snd (App.handleSubmit (backend sanitize_filename "/srv/app" calm sample_disk) None
            (App.typed EmptyString "https://example.com")))
  = []
  /\ App.errors
       (snd (App.handleSubmit (backend sanitize_filename "/srv/app" offline sample_disk)
               None (App.typed "My App" "https://example.com")))
     = [App.BadStatus 500].
Proof.
  split.
  - apply (form_reports_refusal sanitize_filename "/srv/app" calm sample_disk None
             EmptyString "https://example.com" "Missing required fields").
    reflexivity.
  - destruct (form_reports_refusal sanitize_filename "/srv/app" offline sample_disk None
                "My App" "https://example.com" "Internal server error")
      as (_ & _ & [H | H] & _).
    + vm_compute. reflexivity.
    + exfalso. revert H. vm_compute. discriminate.
    + exact H.
Defined.
